(** * Federal employment analysis: the aggregation pipelines

    A shallow embedding of [scripts/create_dashboard_data.py] (the
    embedded-dashboard pipeline) and [scripts/process_data.py] (the
    full-export pipeline), and the properties of their contract.

    Both scripts are straight-line pandas programs: load a table, derive a
    few columns, group by categorical keys, sum [count], filter, sort and
    write.  The data frame is a list of rows, a grouped table is a list of
    aggregate rows in output order, the file system is a finite map from
    paths to contents, and an uncaught Python exception is an explicit
    outcome. *)

From Stdlib Require Import ZArith QArith Ascii String List Lia Lqa.
From stdpp Require Import base decidable option list sorting strings gmap.

Local Open Scope Z_scope.
Local Open Scope string_scope.

(** ** Numbers as pandas stores them *)

Module Num.

(** A float64 cell.  Every finite double is a rational number, and the only
    operation the pipelines' control flow applies to a float is the
    comparison with an integer constant, which is exact; so a finite value
    is carried as the rational it denotes. *)
Inductive pyfloat : Type :=
  | FNaN
  | FNegInf
  | FPosInf
  | FFin (q : Q).

(** [pd.isna] on a float cell. *)
Definition isna (x : pyfloat) : bool :=
  match x with FNaN => true | _ => false end.

(** [x < c] for an integer literal [c]; false on NaN as in IEEE 754. *)
Definition flt (x : pyfloat) (c : Z) : bool :=
  match x with
  | FNaN => false
  | FNegInf => true
  | FPosInf => false
  | FFin q => negb (Qle_bool (inject_Z c) q)
  end.

(** The accumulator of [sum] over an [int32] column is an [int64]: the
    value pandas reports is the mathematical sum wrapped to 64 bits. *)
Definition int64_wrap (z : Z) : Z := (z + 2 ^ 63) mod 2 ^ 64 - 2 ^ 63.

Definition int32_range (z : Z) : Prop := - 2 ^ 31 <= z < 2 ^ 31.

Fixpoint sumZ (l : list Z) : Z :=
  match l with
  | [] => 0
  | z :: l' => z + sumZ l'
  end.

End Num.

Import Num.

(** ** Field deriver: pay bands *)

(** [pay_band] of [create_dashboard_data.py]. *)
Definition pay_band (pay : pyfloat) : string :=
  if isna pay then "Redacted"
  else if flt pay 50000 then "Under $50K"
  else if flt pay 75000 then "$50K-$75K"
  else if flt pay 100000 then "$75K-$100K"
  else if flt pay 125000 then "$100K-$125K"
  else if flt pay 150000 then "$125K-$150K"
  else if flt pay 200000 then "$150K-$200K"
  else "$200K+".

(** [band_order] of [create_dashboard_data.py]. *)
Definition band_order : list string :=
  ["Under $50K"; "$50K-$75K"; "$75K-$100K"; "$100K-$125K"; "$125K-$150K";
   "$150K-$200K"; "$200K+"; "Redacted"].

(** [categorize_pay] of [process_data.py]. *)
Definition categorize_pay (pay : pyfloat) : string :=
  if isna pay then "Unknown/Redacted"
  else if flt pay 40000 then "< $40K"
  else if flt pay 60000 then "$40K-$60K"
  else if flt pay 80000 then "$60K-$80K"
  else if flt pay 100000 then "$80K-$100K"
  else if flt pay 150000 then "$100K-$150K"
  else if flt pay 200000 then "$150K-$200K"
  else "$200K+".

(** The labels [categorize_pay] returns, in the order of its branches with
    the missing-value bucket last. *)
Definition categorize_pay_bands : list string :=
  ["< $40K"; "$40K-$60K"; "$60K-$80K"; "$80K-$100K"; "$100K-$150K";
   "$150K-$200K"; "$200K+"; "Unknown/Redacted"].

(** [categorize_tenure] of [process_data.py]. *)
Definition categorize_tenure (years : pyfloat) : string :=
  if isna years then "Unknown"
  else if flt years 1 then "< 1 year"
  else if flt years 5 then "1-5 years"
  else if flt years 10 then "5-10 years"
  else if flt years 20 then "10-20 years"
  else if flt years 30 then "20-30 years"
  else "30+ years".

(** ** The data frame *)

(** One row of the source file, with the columns the pipelines read.  A
    categorical or object cell is [None] when the field is missing (NaN);
    [count] and [snapshot_yyyymm] are [int32] columns, which cannot hold a
    missing value. *)
Record Row : Type := mkRow {
  age_bracket : option string;
  agency : option string;
  agency_code : option string;
  annualized_adjusted_basic_pay : option string;
  appointment_type : option string;
  count : Z;
  duty_station_state : option string;
  duty_station_state_abbreviation : option string;
  education_level : option string;
  grade : option string;
  length_of_service_years : pyfloat;
  occupational_group : option string;
  occupational_series : option string;
  snapshot_yyyymm : Z;
  stem_occupation : option string;
  supervisory_status : option string
}.

(** A column read as a grouping key. *)
Definition column : Type := Row → option string.

(** What [read_csv] guarantees of a loaded frame: every [count] fits its
    [int32] cell and the frame has fewer than 2^32 rows, so that no [int64]
    accumulator overflows. *)
Definition well_typed (df : list Row) : Prop :=
  Forall (λ r, int32_range (count r)) df ∧ Z.of_nat (length df) < 2 ^ 32.

(** ** pandas operations *)

Module Pandas.

(** Ordering of strings and of composite keys, by code unit. *)
Definition str_le (a b : string) : Prop := String.leb a b = true.

Global Instance str_le_dec : RelDecision str_le.
Proof. intros a b. unfold str_le. apply _. Defined.

Fixpoint key_leb (a b : list string) : bool :=
  match a, b with
  | [], _ => true
  | _ :: _, [] => false
  | x :: a', y :: b' =>
      match String.compare x y with
      | Lt => true
      | Gt => false
      | Eq => key_leb a' b'
      end
  end.

Definition key_le (a b : list string) : Prop := key_leb a b = true.

Global Instance key_le_dec : RelDecision key_le.
Proof. intros a b. unfold key_le. apply _. Defined.

(** The key of a row under [by]: missing as soon as one key cell is
    missing ([dropna=True], the default of [groupby]). *)
Definition key_of (by_ : list column) (r : Row) : option (list string) :=
  mapM (λ c : column, c r) by_.

(** The levels of a categorical column as [read_csv] (and
    [astype('category')]) infers them: the distinct values, sorted.  The
    levels are kept as the strings of the file and sorted as strings, which
    is the order pandas gives a column of names or labels; a column whose
    every cell is a numeral, which pandas may order by numeric value, is
    outside this model. *)
Definition categories (c : column) (df : list Row) : list string :=
  merge_sort str_le (remove_dups (omap c df)).

(** [MultiIndex.from_product]: every combination of levels, the first
    level varying slowest. *)
Fixpoint product (levels : list (list string)) : list (list string) :=
  match levels with
  | [] => [[]]
  | l :: ls => x ← l; (λ k, x :: k) <$> product ls
  end.

(** The group keys of [df.groupby(by, observed=...)], in output order
    ([sort=True]).  With [observed=True] they are the key combinations that
    occur in the frame; with [observed=False], on categorical keys, the
    full product of the levels. *)
Definition group_keys (observed : bool) (by_ : list column) (df : list Row)
    : list (list string) :=
  if observed then merge_sort key_le (remove_dups (omap (key_of by_) df))
  else product ((λ c, categories c df) <$> by_).

(** The rows of one group. *)
Definition group_rows (by_ : list column) (df : list Row) (k : list string)
    : list Row :=
  filter (λ r, key_of by_ r = Some k) df.

(** ['count': 'sum'] over one group; an empty group sums to 0. *)
Definition count_sum (by_ : list column) (df : list Row) (k : list string) : Z :=
  int64_wrap (sumZ (count <$> group_rows by_ df k)).

(** A row of an aggregate table: the group key and the sum of [count].
    The float statistics the scripts compute beside it (mean, median and
    standard deviation of pay, tenure and grade, rounded to two places) are
    further columns of the same rows and are not carried: they do not
    decide which rows a table has, and only the education table is ordered
    by one of them. *)
Record AggRow : Type := mkAgg {
  keys : list string;
  employees : Z
}.

Global Instance AggRow_eq_dec : EqDecision AggRow.
Proof. solve_decision. Defined.

(** [df.groupby(by, observed=...).agg({'count': 'sum', ...}).reset_index()]. *)
Definition groupby_sum (observed : bool) (by_ : list column) (df : list Row)
    : list AggRow :=
  (λ k, mkAgg k (count_sum by_ df k)) <$> group_keys observed by_ df.

(** [t[t['employees'] > 0]]. *)
Definition filter_positive (t : list AggRow) : list AggRow :=
  filter (λ g, 0 < employees g) t.

(** Descending order of [employees]. *)
Definition employees_ge (a b : AggRow) : Prop := employees b <= employees a.

Global Instance employees_ge_dec : RelDecision employees_ge.
Proof. intros a b. unfold employees_ge. apply _. Defined.

(** [t.sort_values('employees', ascending=False)].  pandas leaves the
    order of rows with equal [employees] to its sorting algorithm; here
    they keep the order of a merge sort. *)
Definition sort_by_employees_desc (t : list AggRow) : list AggRow :=
  merge_sort employees_ge t.

(** [order.index(x) if x in order else 99]. *)
Fixpoint list_index (x : string) (order : list string) : option nat :=
  match order with
  | [] => None
  | y :: order' =>
      if decide (x = y) then Some 0%nat else S <$> list_index x order'
  end.

Definition rank_of (order : list string) (x : string) : nat :=
  default 99%nat (list_index x order).

(** The value of the single key column of a row. *)
Definition key1 (g : AggRow) : string :=
  match keys g with
  | k :: _ => k
  | [] => ""
  end.

Definition rank_le (order : list string) (a b : AggRow) : Prop :=
  (rank_of order (key1 a) <= rank_of order (key1 b))%nat.

Global Instance rank_le_dec order : RelDecision (rank_le order).
Proof. intros a b. unfold rank_le. apply _. Defined.

(** [t['order'] = t[col].apply(rank); t.sort_values('order').drop('order')]. *)
Definition sort_by_rank (order : list string) (t : list AggRow) : list AggRow :=
  merge_sort (rank_le order) t.

End Pandas.

Import Pandas.

(** ** Python outcomes *)

Inductive pyexn : Type :=
  | FileNotFoundError (path : string)
  | IndexError (msg : string)
  | ValueError (msg : string).

(** The result of evaluating an expression that may raise. *)
Inductive result (A : Type) : Type :=
  | Ok (a : A)
  | Raise (e : pyexn).
Arguments Ok {A} a.
Arguments Raise {A} e.

(** How a script ends: it runs to its last statement, calls [sys.exit], or
    dies of an uncaught exception. *)
Inductive outcome : Type :=
  | Finished
  | SysExit (code : Z)
  | Uncaught (e : pyexn).

(** The exit status the interpreter hands to the operating system. *)
Definition exit_status (o : outcome) : Z :=
  match o with
  | Finished => 0
  | SysExit code => code
  | Uncaught _ => 1
  end.

(** The last line of the traceback the interpreter prints for an uncaught
    exception. *)
Definition traceback_line (e : pyexn) : string :=
  match e with
  | FileNotFoundError path =>
      "FileNotFoundError: [Errno 2] No such file or directory: '" ++ path ++ "'"
  | IndexError msg => "IndexError: " ++ msg
  | ValueError msg => "ValueError: " ++ msg
  end.

(** ** Field deriver: pay parsing *)

Inductive errors_mode : Type := ErrorsRaise | ErrorsCoerce.

Section Deriver.

(** The string-to-double conversion inside [pd.to_numeric]: the value of
    a numeric string, [None] for a string that is not numeric. *)
Variable parse_number : string → option pyfloat.

(** [pd.to_numeric(cell, errors=...)] on one cell of an object column; a
    missing cell stays missing. *)
Definition to_numeric (errors : errors_mode) (cell : option string)
    : result pyfloat :=
  match cell with
  | None => Ok FNaN
  | Some s =>
      match parse_number s with
      | Some v => Ok v
      | None =>
          match errors with
          | ErrorsCoerce => Ok FNaN
          | ErrorsRaise =>
              Raise (ValueError ("Unable to parse string '" ++ s ++ "'"))
          end
      end
  end.

(** [pd.to_numeric(col, errors=...)] on a column: the first cell that
    raises aborts the conversion. *)
Fixpoint to_numeric_col (errors : errors_mode) (col : list (option string))
    : result (list pyfloat) :=
  match col with
  | [] => Ok []
  | cell :: col' =>
      match to_numeric errors cell with
      | Raise e => Raise e
      | Ok v =>
          match to_numeric_col errors col' with
          | Raise e => Raise e
          | Ok vs => Ok (v :: vs)
          end
      end
  end.

(** [df['pay_numeric']], the cell of one row: [errors='coerce']. *)
Definition pay_numeric (r : Row) : pyfloat :=
  match to_numeric ErrorsCoerce (annualized_adjusted_basic_pay r) with
  | Ok v => v
  | Raise _ => FNaN
  end.

(** [df['is_redacted'] = df['annualized_adjusted_basic_pay'] == 'REDACTED'];
    a missing cell compares unequal. *)
Definition is_redacted (r : Row) : bool :=
  match annualized_adjusted_basic_pay r with
  | Some s => bool_decide (s = "REDACTED")
  | None => false
  end.

End Deriver.

(** A conversion for plain decimal numerals (digits, optionally a point
    and more digits), a fragment of what [pd.to_numeric] reads; it serves
    to run the pipelines on concrete rows. *)
Module Decimal.

Definition digit (a : Ascii.ascii) : option Z :=
  let n := Z.of_N (Ascii.N_of_ascii a) in
  if decide (48 <= n <= 57) then Some (n - 48) else None.

(** Digits up to the end or a point: value so far, and the rest. *)
Fixpoint int_part (acc : Z) (s : string) : option (Z * string) :=
  match s with
  | EmptyString => Some (acc, EmptyString)
  | String a s' =>
      if decide (a = "."%char) then Some (acc, s')
      else d ← digit a; int_part (10 * acc + d) s'
  end.

(** Digits of the fraction: numerator and power of ten. *)
Fixpoint frac_part (num : Z) (den : positive) (s : string) : option (Z * positive) :=
  match s with
  | EmptyString => Some (num, den)
  | String a s' => d ← digit a; frac_part (10 * num + d) (10 * den) s'
  end.

Definition parse (s : string) : option pyfloat :=
  match s with
  | EmptyString => None
  | String a _ =>
      _ ← digit a;
      '(i, rest) ← int_part 0 s;
      '(n, d) ← frac_part 0 1 rest;
      Some (FFin (Qplus (inject_Z i) (Qmake n d)))
  end.

End Decimal.

(** ** The file system and a run *)

(** Paths of the two scripts. *)
Definition RAW_DATA_PATH : string :=
  "/mnt/c/Users/chipp/Downloads/employment_202511_1_2026-01-21.csv".
Definition OUTPUT_PATH : string :=
  "/mnt/c/Users/chipp/federal-employment-analysis/dashboard".
Definition PROCESSED_DATA_PATH : string := "data/processed".

Definition path_join (dir name : string) : string := dir ++ "/" ++ name.

(** [overall_stats] of [process_data.py], its integer fields.  The float
    fields between them ([avg_salary], [median_salary], [avg_tenure],
    [pct_redacted]) are rounded means and medians; on an empty frame they
    are NaN and none of them raises. *)
Record OverallStats : Type := mkOverallStats {
  total_employees : Z;
  total_agencies : nat;
  total_states : nat;
  snapshot_date : Z
}.

(** [overall] of [create_dashboard_data.py], its integer and string
    fields. *)
Record Overall : Type := mkOverall {
  o_total_employees : Z;
  o_total_agencies : nat;
  o_total_states : nat;
  o_snapshot : string
}.

(** [data] of [create_dashboard_data.py]. *)
Record DashboardData : Type := mkDashboardData {
  d_overall : Overall;
  d_agencies : list AggRow;
  d_allAgencies : list AggRow;
  d_states : list AggRow;
  d_payDistribution : list AggRow;
  d_education : list AggRow;
  d_appointments : list AggRow;
  d_ageBrackets : list AggRow;
  d_stem : list AggRow;
  d_supervisory : list AggRow
}.

(** What a written file holds: the value that was serialised into it. *)
Inductive content : Type :=
  | Csv (t : list AggRow)
  | Json (s : OverallStats)
  | Js (d : DashboardData).

(** The output side of the file system: the directories that exist and
    the files with their contents. *)
Record FS : Type := mkFS {
  dirs : gset string;
  files : gmap string content
}.

(** [Path.mkdir(parents=True, exist_ok=True)]. *)
Definition mkdir (d : string) (fs : FS) : FS :=
  mkFS ({[ d ]} ∪ dirs fs) (files fs).

(** [open(path, 'w')] followed by the writes and the close: the file is
    truncated and holds exactly what this run wrote ([to_csv] opens its
    target the same way). *)
Definition write_file (path : string) (c : content) (fs : FS) : FS :=
  mkFS (dirs fs) (<[ path := c ]> (files fs)).

(** What is left after a run: the file system, the lines printed to the
    standard output on the way to a failure, the last line of the standard
    error, and how the script ended.  Progress lines printed after a
    successful load are not recorded. *)
Record Run : Type := mkRun {
  fs_after : FS;
  stdout : list string;
  stderr : list string;
  ended : outcome
}.

(** [open(path, 'w')] needs the directory of [path]; the write replaces
    the whole file. *)
Definition open_write (dir name : string) (c : content) (fs : FS) : result FS :=
  if decide (dir ∈ dirs fs)
  then Ok (write_file (path_join dir name) c fs)
  else Raise (FileNotFoundError (path_join dir name)).

(** Files written one after the other; the first failure stops the script
    and leaves the earlier files written. *)
Fixpoint write_all (dir : string) (ws : list (string * content)) (fs : FS)
    : FS * option pyexn :=
  match ws with
  | [] => (fs, None)
  | (name, c) :: ws' =>
      match open_write dir name c fs with
      | Raise e => (fs, Some e)
      | Ok fs' => write_all dir ws' fs'
      end
  end.

(** ** The embedded-dashboard pipeline: [create_dashboard_data.py] *)

Module Dashboard.
Section Script.

Variable parse_number : string → option pyfloat.

(** The pattern shared by the summary tables: group with
    [observed=True], sum [count], keep the rows with
    [employees > 0]. *)
Definition summary (by_ : list column) (df : list Row) : list AggRow :=
  filter_positive (groupby_sum true by_ df).

Definition agency_data (df : list Row) : list AggRow :=
  sort_by_employees_desc (summary [agency] df).

Definition state_data (df : list Row) : list AggRow :=
  filter (λ g, key1 g ≠ "REDACTED")
    (sort_by_employees_desc
       (summary [duty_station_state; duty_station_state_abbreviation] df)).

(** [df['pay_band'] = df['pay_numeric'].apply(pay_band)]. *)
Definition pay_band_col : column :=
  λ r, Some (pay_band (pay_numeric parse_number r)).

(** [pay_dist]: grouped and ranked, with no filter on [employees]. *)
Definition pay_dist (df : list Row) : list AggRow :=
  sort_by_rank band_order (groupby_sum true [pay_band_col] df).

(** [edu_data], up to the order of its rows: the script sorts it by
    [avg_pay], a float mean that is not carried here. *)
Definition edu_data (df : list Row) : list AggRow :=
  summary [education_level] df.

Definition appt_data (df : list Row) : list AggRow :=
  sort_by_employees_desc (summary [appointment_type] df).

Definition age_order : list string :=
  ["LESS THAN 20"; "20-24"; "25-29"; "30-34"; "35-39"; "40-44"; "45-49";
   "50-54"; "55-59"; "60-64"; "65 OR MORE"].

Definition age_data (df : list Row) : list AggRow :=
  sort_by_rank age_order (summary [age_bracket] df).

Definition stem_data (df : list Row) : list AggRow :=
  summary [stem_occupation] df.

Definition super_data (df : list Row) : list AggRow :=
  sort_by_employees_desc (summary [supervisory_status] df).

Definition overall (df : list Row) : Overall :=
  mkOverall
    (int64_wrap (sumZ (count <$> df)))
    (length (remove_dups (key1 <$> agency_data df)))
    (length (state_data df))
    "November 2025".

Definition data (df : list Row) : DashboardData :=
  mkDashboardData
    (overall df)
    (take 50 (agency_data df))
    (agency_data df)
    (state_data df)
    (pay_dist df)
    (edu_data df)
    (appt_data df)
    (age_data df)
    (stem_data df)
    (super_data df).

(** The script from top to bottom.  [raw] is the table in the file at
    [RAW_DATA_PATH], [None] when there is no such file: [pd.read_csv]
    then raises, and nothing catches it. *)
Definition main (raw : option (list Row)) (fs : FS) : Run :=
  match raw with
  | None =>
      let e := FileNotFoundError RAW_DATA_PATH in
      mkRun fs ["Loading data..."] [traceback_line e] (Uncaught e)
  | Some df =>
      match open_write OUTPUT_PATH "data.js" (Js (data df)) fs with
      | Raise e => mkRun fs ["Loading data..."] [traceback_line e] (Uncaught e)
      | Ok fs' => mkRun fs' ["Loading data..."] [] Finished
      end
  end.

End Script.
End Dashboard.

(** ** The full-export pipeline: [process_data.py] *)

Module ProcessData.
Section Script.

Variable parse_number : string → option pyfloat.

(** The value pandas gives [observed] when [groupby] is called without
    it, as every [groupby] of this script is: [False] before pandas 3.0,
    [True] from 3.0 on. *)
Variable observed_default : bool.

(** [df['tenure_category']] and [df['pay_band']], both
    [astype('category')]. *)
Definition tenure_category : column :=
  λ r, Some (categorize_tenure (length_of_service_years r)).

Definition pay_band_col : column :=
  λ r, Some (categorize_pay (pay_numeric parse_number r)).

Definition agency_export (df : list Row) : list AggRow :=
  groupby_sum observed_default [agency; agency_code] df.

Definition state_export (df : list Row) : list AggRow :=
  groupby_sum observed_default
    [duty_station_state; duty_station_state_abbreviation] df.

Definition occupation_export (df : list Row) : list AggRow :=
  groupby_sum observed_default
    [occupational_group; occupational_series; stem_occupation] df.

Definition demographics_export (df : list Row) : list AggRow :=
  groupby_sum observed_default
    [age_bracket; education_level; tenure_category] df.

Definition pay_distribution (df : list Row) : list AggRow :=
  groupby_sum observed_default [pay_band_col; agency] df.

Definition appointment_export (df : list Row) : list AggRow :=
  groupby_sum observed_default [appointment_type; agency] df.

(** [Series.nunique()]: the distinct values, the missing one apart. *)
Definition nunique (c : column) (df : list Row) : nat :=
  length (remove_dups (omap c df)).

(** [Series.iloc[0]]. *)
Definition iloc0 {A} (col : list A) : result A :=
  match col with
  | [] => Raise (IndexError "single positional indexer is out-of-bounds")
  | x :: _ => Ok x
  end.

(** The dictionary display of step 8, evaluated entry by entry; only the
    last entry can raise. *)
Definition overall_stats (df : list Row) : result OverallStats :=
  let total_employees := int64_wrap (sumZ (count <$> df)) in
  let total_agencies := nunique agency df in
  let total_states := nunique duty_station_state df in
  match iloc0 (snapshot_yyyymm <$> df) with
  | Raise e => Raise e
  | Ok snapshot_date =>
      Ok (mkOverallStats total_employees total_agencies total_states
            snapshot_date)
  end.

(** Steps 3 to 7: the six tables, in the order they are written. *)
Definition csv_exports (df : list Row) : list (string * content) :=
  [("agency_summary.csv", Csv (agency_export df));
   ("state_summary.csv", Csv (state_export df));
   ("occupation_summary.csv", Csv (occupation_export df));
   ("demographics_summary.csv", Csv (demographics_export df));
   ("pay_distribution.csv", Csv (pay_distribution df));
   ("appointment_summary.csv", Csv (appointment_export df))].

Definition rule : string :=
  "============================================================".

Definition banner : list string :=
  [rule; "Federal Employment Data Processing"; rule].

(** Step 8: compute the statistics, then open and write the file. *)
Definition export_overall (df : list Row) (fs : FS) : FS * option pyexn :=
  match overall_stats df with
  | Raise e => (fs, Some e)
  | Ok s => write_all PROCESSED_DATA_PATH [("overall_stats.json", Json s)] fs
  end.

Definition finish (out : list string) (r : FS * option pyexn) : Run :=
  match r.2 with
  | Some e => mkRun r.1 out [traceback_line e] (Uncaught e)
  | None => mkRun r.1 out [] Finished
  end.

(** The script from top to bottom.  [raw] is the table in the file at
    [RAW_DATA_PATH], [None] when there is no such file. *)
Definition main (raw : option (list Row)) (fs : FS) : Run :=
  let fs0 := mkdir PROCESSED_DATA_PATH fs in
  match raw with
  | None =>
      mkRun fs0
        (banner ++ ["ERROR: Raw data file not found at " ++ RAW_DATA_PATH])
        [] (SysExit 1)
  | Some df =>
      match write_all PROCESSED_DATA_PATH (csv_exports df) fs0 with
      | (fs6, Some e) => finish banner (fs6, Some e)
      | (fs6, None) => finish banner (export_overall df fs6)
      end
  end.

End Script.
End ProcessData.

(** Rows for examples: the named cells, every other categorical cell
    missing, snapshot 202511. *)
Definition mk_agency (a c : string) (n : Z) : Row :=
  mkRow None (Some a) (Some c) None None n None None None None FNaN None None
        202511 None None.

(** The rows of a frame whose key under [by] is present and satisfies
    [p]. *)
Definition keyed_where (by_ : list column) (p : list string → bool)
    (df : list Row) : list Row :=
  filter (λ r, from_option p false (key_of by_ r) = true) df.

(** The rows of a frame whose grouping-key combination is non-null. *)
Definition keyed (by_ : list column) (df : list Row) : list Row :=
  keyed_where by_ (λ _, true) df.

(** The total of the [employees] column of a table. *)
Definition sum_employees (t : list AggRow) : Z := sumZ (employees <$> t).

(** The total of the [count] column of a frame. *)
Definition sum_count (df : list Row) : Z := sumZ (count <$> df).

(** [state != 'REDACTED'] on the first cell of a key. *)
Definition not_redacted (k : list string) : bool :=
  match k with
  | s :: _ => bool_decide (s ≠ "REDACTED")
  | [] => bool_decide ("" ≠ "REDACTED")
  end.

(** A table has exactly the groups of [groupby(cols, observed=True)] whose
    sum of [count] is positive. *)
Definition positive_groups (cols : list column) (df : list Row)
    (t : list AggRow) : Prop :=
  ∀ g, g ∈ t ↔ g ∈ groupby_sum true cols df ∧ 0 < employees g.

Definition all_positive (t : list AggRow) : Prop :=
  Forall (λ g, 0 < employees g) t.

Definition mk_pay (raw : string) (n : Z) : Row :=
  mkRow None None None (Some raw) None n None None None None FNaN None None
        202511 None None.

Definition mk_state (s a : string) (n : Z) : Row :=
  mkRow None None None None None n (Some s) (Some a) None None FNaN None None
        202511 None None.

Definition mk_demo (age edu : string) (years : Q) (n : Z) : Row :=
  mkRow (Some age) None None None None n None None (Some edu) None
        (FFin years) None None 202511 None None.

(** The map after a sequence of writes into [dir]. *)
Definition apply_writes (dir : string) (ws : list (string * content))
    (m : gmap string content) : gmap string content :=
  foldl (λ m w, <[ path_join dir w.1 := w.2 ]> m) m ws.

(** The labels [categorize_tenure] returns, in the order of its branches
    with the missing-value bucket last. *)
Definition tenure_bands : list string :=
  ["< 1 year"; "1-5 years"; "5-10 years"; "10-20 years"; "20-30 years";
   "30+ years"; "Unknown"].

(** * Properties *)

(** ** Sums *)

Section Sums.

Lemma sumZ_app (l1 l2 : list Z) : sumZ (l1 ++ l2) = sumZ l1 + sumZ l2.
Proof. induction l1 as [|z l1 IH]; simpl; lia. Qed.

Lemma sumZ_Permutation (l1 l2 : list Z) : l1 ≡ₚ l2 → sumZ l1 = sumZ l2.
Proof. induction 1; simpl; lia. Qed.

Lemma sum_employees_Permutation (t1 t2 : list AggRow) :
  t1 ≡ₚ t2 → sum_employees t1 = sum_employees t2.
Proof.
  intros HP. unfold sum_employees. apply sumZ_Permutation.
  by apply fmap_Permutation.
Qed.

Lemma sumZ_bound (l : list Z) :
  Forall int32_range l →
  - 2 ^ 31 * Z.of_nat (length l) <= sumZ l <= 2 ^ 31 * Z.of_nat (length l).
Proof.
  unfold int32_range. induction 1 as [|z l Hz _ IH]; simpl length; simpl sumZ.
  - lia.
  - rewrite Nat2Z.inj_succ. lia.
Qed.

Lemma sumZ_nonneg (l : list Z) : Forall (λ z, 0 <= z) l → 0 <= sumZ l.
Proof. induction 1; simpl; lia. Qed.

Lemma int64_wrap_id (z : Z) : - 2 ^ 63 <= z < 2 ^ 63 → int64_wrap z = z.
Proof.
  intros Hz. unfold int64_wrap.
  rewrite Z.mod_small; lia.
Qed.

(** The sum over any selection of rows of a loaded frame fits the
    accumulator. *)
Lemma wrap_filter_sum (df : list Row) (P : Row → Prop) `{!∀ r, Decision (P r)} :
  well_typed df →
  int64_wrap (sumZ (count <$> filter P df)) = sumZ (count <$> filter P df).
Proof.
  intros [Hty Hlen]. apply int64_wrap_id.
  assert (Hb : Forall int32_range (count <$> filter P df)).
  { apply Forall_fmap, Forall_forall. intros r [_ Hr]%list_elem_of_filter.
    by eapply Forall_forall in Hty. }
  apply sumZ_bound in Hb. rewrite length_fmap in Hb.
  pose proof (length_filter P df) as Hf.
  assert (Z.of_nat (length (filter P df)) < 2 ^ 32) by lia.
  assert (0 <= Z.of_nat (length (filter P df))) by lia.
  nia.
Qed.

Lemma wrap_sum_count (df : list Row) :
  well_typed df → int64_wrap (sumZ (count <$> df)) = sumZ (count <$> df).
Proof.
  intros [Hty Hlen]. apply int64_wrap_id.
  assert (Hb : Forall int32_range (count <$> df)) by by apply Forall_fmap.
  apply sumZ_bound in Hb. rewrite length_fmap in Hb. nia.
Qed.

End Sums.

(** ** The keys of a grouped table *)

Section GroupKeys.

Implicit Types (cols : list column) (df : list Row) (k : list string).

Lemma elem_of_observed_keys cols df k :
  k ∈ group_keys true cols df ↔ ∃ r, r ∈ df ∧ key_of cols r = Some k.
Proof.
  unfold group_keys.
  rewrite merge_sort_Permutation, elem_of_remove_dups.
  apply list_elem_of_omap.
Qed.

Lemma elem_of_categories (c : column) df (x : string) :
  x ∈ categories c df ↔ ∃ r, r ∈ df ∧ c r = Some x.
Proof.
  unfold categories.
  rewrite merge_sort_Permutation, elem_of_remove_dups.
  apply list_elem_of_omap.
Qed.

Lemma NoDup_categories (c : column) df : NoDup (categories c df).
Proof.
  unfold categories. rewrite merge_sort_Permutation.
  apply NoDup_remove_dups.
Qed.

Lemma elem_of_product (ls : list (list string)) k :
  k ∈ product ls ↔ Forall2 (λ x l, x ∈ l) k ls.
Proof.
  revert k. induction ls as [|l ls IH]; intros k; simpl.
  - rewrite list_elem_of_singleton. split.
    + intros ->. constructor.
    + by inversion 1.
  - rewrite list_elem_of_bind. split.
    + intros (x & (k' & -> & Hk')%list_elem_of_fmap & Hx).
      constructor; [done|]. by apply IH.
    + inversion 1 as [|x l' k' ls' Hx Hk']; subst.
      exists x. split; [|done].
      apply list_elem_of_fmap. exists k'. split; [done|]. by apply IH.
Qed.

Lemma NoDup_product (ls : list (list string)) :
  Forall NoDup ls → NoDup (product ls).
Proof.
  induction 1 as [|l ls Hl _ IH]; simpl.
  - apply NoDup_singleton.
  - apply NoDup_bind; [| |done].
    + intros x1 x2 k _ _ (k1 & -> & _)%list_elem_of_fmap
        (k2 & Heq & _)%list_elem_of_fmap.
      congruence.
    + intros x _. apply NoDup_fmap_2; [|done].
      intros k1 k2 Heq. congruence.
Qed.

Lemma NoDup_group_keys (observed : bool) cols df :
  NoDup (group_keys observed cols df).
Proof.
  destruct observed; simpl.
  - rewrite merge_sort_Permutation. apply NoDup_remove_dups.
  - apply NoDup_product, Forall_fmap, Forall_forall.
    intros c _. apply NoDup_categories.
Qed.

(** Whatever [observed] is, the key of every row that has one is a
    group. *)
Lemma group_keys_complete (observed : bool) cols df r k :
  r ∈ df → key_of cols r = Some k → k ∈ group_keys observed cols df.
Proof.
  intros Hr Hk. destruct observed.
  - apply elem_of_observed_keys. eauto.
  - simpl. apply elem_of_product.
    apply mapM_Some in Hk.
    apply Forall2_fmap_r, Forall2_flip.
    eapply Forall2_impl; [exact Hk|].
    intros c x Hc. simpl. apply elem_of_categories. eauto.
Qed.

Lemma keys_groupby_sum (observed : bool) cols df :
  keys <$> groupby_sum observed cols df = group_keys observed cols df.
Proof.
  unfold groupby_sum. rewrite <- list_fmap_compose.
  apply list_fmap_id.
Qed.

Lemma elem_of_groupby_sum (observed : bool) cols df (g : AggRow) :
  g ∈ groupby_sum observed cols df ↔
  keys g ∈ group_keys observed cols df ∧
  employees g = count_sum cols df (keys g).
Proof.
  unfold groupby_sum. rewrite list_elem_of_fmap. split.
  - intros (k & -> & Hk). done.
  - intros [Hk He]. exists (keys g). split; [|done].
    destruct g as [k e]. simpl in *. by subst.
Qed.

End GroupKeys.

(** ** Group sums add up to the frame *)

Section GroupSums.

Variable cols : list column.

Lemma group_rows_cons (r : Row) (df : list Row) (k : list string) :
  group_rows cols (r :: df) k =
  if decide (key_of cols r = Some k) then r :: group_rows cols df k
  else group_rows cols df k.
Proof. unfold group_rows. by rewrite filter_cons. Qed.

Lemma sum_point_absent (ok : option (list string)) (c : Z)
    (f : list string → Z) (l : list (list string)) :
  (∀ k, k ∈ l → ok ≠ Some k) →
  sumZ ((λ k, (if decide (ok = Some k) then c else 0) + f k) <$> l)
  = sumZ (f <$> l).
Proof.
  induction l as [|k l IH]; intros Hl; [done|].
  rewrite !fmap_cons. cbn [sumZ].
  rewrite IH by (intros k' Hk'; by apply Hl, list_elem_of_further).
  destruct (decide (ok = Some k)) as [Heq|]; [|lia].
  exfalso. apply (Hl k); [apply list_elem_of_here|done].
Qed.

Lemma sum_point_present (k0 : list string) (c : Z)
    (f : list string → Z) (l : list (list string)) :
  NoDup l → k0 ∈ l →
  sumZ ((λ k, (if decide (Some k0 = Some k) then c else 0) + f k) <$> l)
  = c + sumZ (f <$> l).
Proof.
  induction 1 as [|k l Hk Hnd IH]; intros Hin; [by inversion Hin|].
  rewrite !fmap_cons. cbn [sumZ]. destruct (decide (Some k0 = Some k)) as [Heq|Hne].
  - simplify_eq. rewrite sum_point_absent; [lia|].
    intros k' Hk' ?. by simplify_eq.
  - apply elem_of_cons in Hin as [->|Hin]; [done|].
    rewrite IH by done. lia.
Qed.

(** The sums of the groups selected by [p], over any duplicate-free list
    of keys that has every selected key of the frame, add up to the
    count of the rows with a selected key. *)
Lemma group_sums_total (p : list string → bool) (ks : list (list string))
    (df : list Row) :
  NoDup ks →
  (∀ r k, r ∈ df → key_of cols r = Some k → p k = true → k ∈ ks) →
  sumZ ((λ k, sumZ (count <$> group_rows cols df k))
          <$> filter (λ k, p k = true) ks)
  = sum_count (keyed_where cols p df).
Proof.
  intros Hnd. induction df as [|r df IH]; intros Hks.
  - unfold sum_count, keyed_where. rewrite filter_nil.
    induction (filter _ ks) as [|k l IHl]; [done|].
    rewrite fmap_cons. cbn [sumZ]. by rewrite IHl.
  - assert (Hks' : ∀ r k, r ∈ df → key_of cols r = Some k →
                          p k = true → k ∈ ks).
    { intros r' k' Hr'. by apply Hks, list_elem_of_further. }
    specialize (IH Hks').
    assert (Hstep : ∀ l : list (list string),
      sumZ ((λ k, sumZ (count <$> group_rows cols (r :: df) k)) <$> l)
      = sumZ ((λ k, (if decide (key_of cols r = Some k) then count r else 0)
                    + sumZ (count <$> group_rows cols df k)) <$> l)).
    { intros l. f_equal. apply list_fmap_ext. intros _ k _.
      rewrite group_rows_cons. by destruct (decide _). }
    rewrite Hstep. unfold sum_count, keyed_where in *.
    rewrite filter_cons.
    destruct (key_of cols r) as [k0|] eqn:Hk0; cbn [from_option].
    + destruct (p k0) eqn:Hp.
      * rewrite decide_True by done. rewrite fmap_cons. cbn [sumZ].
        rewrite sum_point_present; [lia| |].
        -- by apply NoDup_filter.
        -- apply list_elem_of_filter. split; [done|].
           eapply Hks; [apply list_elem_of_here|done..].
      * rewrite decide_False by done.
        rewrite sum_point_absent; [done|].
        intros k [Hpk _]%list_elem_of_filter ?. simplify_eq. congruence.
    + rewrite decide_False by done.
      rewrite sum_point_absent; done.
Qed.

End GroupSums.

(** ** Totals of the grouped tables *)

Section TableTotals.

Variable cols : list column.

Lemma count_sum_exact (df : list Row) (k : list string) :
  well_typed df → count_sum cols df k = sumZ (count <$> group_rows cols df k).
Proof. intros Hty. unfold count_sum, group_rows. by apply wrap_filter_sum. Qed.

Lemma employees_filter_fmap (f : list string → Z) (p : list string → bool)
    (l : list (list string)) :
  employees <$> filter (λ g, p (keys g) = true) ((λ k, mkAgg k (f k)) <$> l)
  = f <$> filter (λ k, p k = true) l.
Proof.
  induction l as [|k l IH]; [done|].
  rewrite fmap_cons, !filter_cons. cbn [keys].
  destruct (decide (p k = true)); rewrite ?fmap_cons, IH; done.
Qed.

Lemma sum_groupby_where (observed : bool) (p : list string → bool)
    (df : list Row) :
  well_typed df →
  sum_employees (filter (λ g, p (keys g) = true) (groupby_sum observed cols df))
  = sum_count (keyed_where cols p df).
Proof.
  intros Hty. unfold sum_employees, groupby_sum.
  rewrite employees_filter_fmap.
  rewrite <- (group_sums_total cols p (group_keys observed cols df) df).
  - f_equal. apply list_fmap_ext. intros _ k _. by apply count_sum_exact.
  - apply NoDup_group_keys.
  - intros r k Hr Hk _. by eapply group_keys_complete.
Qed.

Lemma filter_all_true (t : list AggRow) :
  filter (λ g : AggRow, (λ _ : list string, true) (keys g) = true) t = t.
Proof.
  induction t as [|g t IH]; [done|].
  rewrite filter_cons, decide_True by done. by rewrite IH.
Qed.

Lemma sum_groupby (observed : bool) (df : list Row) :
  well_typed df →
  sum_employees (groupby_sum observed cols df) = sum_count (keyed cols df).
Proof.
  intros Hty. unfold keyed.
  rewrite <- (sum_groupby_where observed (λ _, true) df Hty).
  by rewrite filter_all_true.
Qed.

Lemma groupby_nonneg (observed : bool) (df : list Row) :
  well_typed df → Forall (λ r, 0 <= count r) df →
  Forall (λ g, 0 <= employees g) (groupby_sum observed cols df).
Proof.
  intros Hty Hnn. apply Forall_forall.
  intros g [_ ->]%elem_of_groupby_sum.
  rewrite count_sum_exact by done.
  apply sumZ_nonneg, Forall_fmap, Forall_forall.
  intros r [_ Hr]%list_elem_of_filter.
  by eapply Forall_forall in Hnn.
Qed.

End TableTotals.

Lemma sum_filter_positive_where (Q : AggRow → Prop) `{!∀ g, Decision (Q g)}
    (t : list AggRow) :
  Forall (λ g, 0 <= employees g) t →
  sum_employees (filter Q (filter_positive t)) = sum_employees (filter Q t).
Proof.
  unfold filter_positive, sum_employees.
  induction 1 as [|g t Hg _ IH]; [done|].
  rewrite !filter_cons.
  destruct (decide (0 < employees g)), (decide (Q g));
    rewrite ?filter_cons, ?decide_True, ?decide_False by done;
    rewrite ?fmap_cons; cbn [sumZ]; lia.
Qed.

Lemma filter_True_id (t : list AggRow) : filter (λ _, True) t = t.
Proof.
  induction t as [|g t IH]; [done|].
  rewrite filter_cons, decide_True by done. by rewrite IH.
Qed.

Lemma sum_filter_positive (t : list AggRow) :
  Forall (λ g, 0 <= employees g) t →
  sum_employees (filter_positive t) = sum_employees t.
Proof.
  intros Ht.
  pose proof (sum_filter_positive_where (λ _, True) t Ht) as Hs.
  by rewrite !filter_True_id in Hs.
Qed.

Lemma sum_summary (cols : list column) (df : list Row) :
  well_typed df → Forall (λ r, 0 <= count r) df →
  sum_employees (Dashboard.summary cols df) = sum_count (keyed cols df).
Proof.
  intros Hty Hnn. unfold Dashboard.summary.
  rewrite sum_filter_positive by by apply groupby_nonneg.
  by apply sum_groupby.
Qed.

(** ** Sorting *)

Section Sorting.

Global Instance employees_ge_total : Total employees_ge.
Proof. intros a b. unfold employees_ge. lia. Qed.

Global Instance employees_ge_trans : Transitive employees_ge.
Proof. intros a b c. unfold employees_ge. lia. Qed.

Global Instance rank_le_total order : Total (rank_le order).
Proof. intros a b. unfold rank_le. lia. Qed.

Global Instance rank_le_trans order : Transitive (rank_le order).
Proof. intros a b c. unfold rank_le. lia. Qed.

Lemma StronglySorted_filter {A} (R : relation A) (P : A → Prop)
    `{!∀ x, Decision (P x)} (l : list A) :
  StronglySorted R l → StronglySorted R (filter P l).
Proof.
  induction 1 as [|x l Hl IH Hx]; [constructor|].
  rewrite filter_cons. destruct (decide (P x)); [|done].
  constructor; [done|].
  apply Forall_forall. intros y [_ Hy]%list_elem_of_filter.
  by eapply Forall_forall in Hx.
Qed.

Lemma sort_by_employees_desc_sorted (t : list AggRow) :
  StronglySorted employees_ge (sort_by_employees_desc t).
Proof. apply StronglySorted_merge_sort; apply _. Qed.

Lemma sort_by_employees_desc_perm (t : list AggRow) :
  sort_by_employees_desc t ≡ₚ t.
Proof. apply merge_sort_Permutation. Qed.

Lemma sort_by_rank_sorted (order : list string) (t : list AggRow) :
  StronglySorted (rank_le order) (sort_by_rank order t).
Proof. apply StronglySorted_merge_sort; apply _. Qed.

Lemma sort_by_rank_perm (order : list string) (t : list AggRow) :
  sort_by_rank order t ≡ₚ t.
Proof. apply merge_sort_Permutation. Qed.


Lemma list_index_None (x : string) (order : list string) :
  list_index x order = None ↔ x ∉ order.
Proof.
  induction order as [|y order IH]; simpl.
  - split; [intros _; apply not_elem_of_nil|done].
  - rewrite not_elem_of_cons. destruct (decide (x = y)).
    + split; [done|]. intros [? _]. done.
    + destruct (list_index x order); simpl.
      * split; [done|]. intros [_ Hx]. by apply IH in Hx.
      * split; [|done]. intros _. split; [done|]. by apply IH.
Qed.



End Sorting.

(** ** What the filtered tables of the dashboard hold *)


Lemma summary_positive_groups (cols : list column) (df : list Row) :
  positive_groups cols df (Dashboard.summary cols df).
Proof.
  intros g. unfold Dashboard.summary, filter_positive.
  rewrite list_elem_of_filter. tauto.
Qed.

Lemma positive_groups_perm (cols : list column) (df : list Row)
    (t t' : list AggRow) :
  t' ≡ₚ t → positive_groups cols df t → positive_groups cols df t'.
Proof. intros HP Ht g. rewrite HP. apply Ht. Qed.

Lemma positive_groups_all_positive (cols : list column) (df : list Row)
    (t : list AggRow) :
  positive_groups cols df t → all_positive t.
Proof. intros Ht. apply Forall_forall. intros g Hg. by apply Ht in Hg as [_ ?]. Qed.

Lemma sorted_summary_positive (cols : list column) (df : list Row) :
  positive_groups cols df (sort_by_employees_desc (Dashboard.summary cols df)).
Proof.
  eapply positive_groups_perm;
    [apply sort_by_employees_desc_perm|apply summary_positive_groups].
Qed.

Lemma state_data_spec (df : list Row) (g : AggRow) :
  g ∈ Dashboard.state_data df ↔
  g ∈ groupby_sum true [duty_station_state; duty_station_state_abbreviation] df
  ∧ 0 < employees g ∧ key1 g ≠ "REDACTED".
Proof.
  unfold Dashboard.state_data.
  rewrite list_elem_of_filter, (sorted_summary_positive _ df g). tauto.
Qed.

(** ** Pay bands *)

Section PayBands.

Lemma flt_cases (q : Q) (c : Z) :
  (flt (FFin q) c = true ∧ (q < inject_Z c)%Q) ∨
  (flt (FFin q) c = false ∧ (inject_Z c <= q)%Q).
Proof.
  unfold flt. destruct (Qle_bool (inject_Z c) q) eqn:Hle; simpl.
  - right. split; [done|]. by apply Qle_bool_iff.
  - left. split; [done|]. apply Qnot_le_lt. intros Hq.
    apply Qle_bool_iff in Hq. congruence.
Qed.

End PayBands.

Ltac flt_split q c :=
  let Hb := fresh "Hb" in
  let Hq := fresh "Hq" in
  destruct (flt_cases q c) as [[Hb Hq]|[Hb Hq]];
  rewrite Hb; clear Hb;
  unfold inject_Z in Hq.

Ltac in_list :=
  repeat first [apply list_elem_of_here | apply list_elem_of_further].

Ltac band_iff :=
  repeat split; intros; try discriminate; try reflexivity;
  repeat match goal with H : _ ∧ _ |- _ => destruct H end; try lra.

(** C2: [pay_band] (and [categorize_pay], with its own thresholds) is a
    total function into its fixed list of bands; a missing pay goes to the
    redacted bucket, and each numeric band is exactly one half-open
    interval between consecutive thresholds, so the intervals neither
    overlap nor leave a gap; 49999.99 is "Under $50K" and 50000.00 is
    "$50K-$75K". *)
Theorem pay_band_partition :
  (pay_band FNaN = "Redacted"
   ∧ (∀ pay, pay_band pay ∈ band_order)
   ∧ NoDup band_order
   ∧ (∀ q : Q,
        (pay_band (FFin q) = "Under $50K" ↔ q < 50000)
        ∧ (pay_band (FFin q) = "$50K-$75K" ↔ 50000 <= q ∧ q < 75000)
        ∧ (pay_band (FFin q) = "$75K-$100K" ↔ 75000 <= q ∧ q < 100000)
        ∧ (pay_band (FFin q) = "$100K-$125K" ↔ 100000 <= q ∧ q < 125000)
        ∧ (pay_band (FFin q) = "$125K-$150K" ↔ 125000 <= q ∧ q < 150000)
        ∧ (pay_band (FFin q) = "$150K-$200K" ↔ 150000 <= q ∧ q < 200000)
        ∧ (pay_band (FFin q) = "$200K+" ↔ 200000 <= q)
        ∧ pay_band (FFin q) ≠ "Redacted")
   ∧ pay_band FNegInf = "Under $50K"
   ∧ pay_band FPosInf = "$200K+"
   ∧ pay_band (FFin 49999.99) = "Under $50K"
   ∧ pay_band (FFin 50000.00) = "$50K-$75K")%Q
  ∧
  (categorize_pay FNaN = "Unknown/Redacted"
   ∧ (∀ pay, categorize_pay pay ∈ categorize_pay_bands)
   ∧ NoDup categorize_pay_bands
   ∧ (∀ q : Q,
        (categorize_pay (FFin q) = "< $40K" ↔ q < 40000)
        ∧ (categorize_pay (FFin q) = "$40K-$60K" ↔ 40000 <= q ∧ q < 60000)
        ∧ (categorize_pay (FFin q) = "$60K-$80K" ↔ 60000 <= q ∧ q < 80000)
        ∧ (categorize_pay (FFin q) = "$80K-$100K" ↔ 80000 <= q ∧ q < 100000)
        ∧ (categorize_pay (FFin q) = "$100K-$150K" ↔ 100000 <= q ∧ q < 150000)
        ∧ (categorize_pay (FFin q) = "$150K-$200K" ↔ 150000 <= q ∧ q < 200000)
        ∧ (categorize_pay (FFin q) = "$200K+" ↔ 200000 <= q)
        ∧ categorize_pay (FFin q) ≠ "Unknown/Redacted")
   ∧ categorize_pay FNegInf = "< $40K"
   ∧ categorize_pay FPosInf = "$200K+")%Q.
Proof.
  split.
  - split_and!; try reflexivity.
    + intros pay. unfold band_order.
      destruct pay as [| | |q]; try solve [cbv; in_list].
      unfold pay_band. cbn [isna].
      flt_split q 50000; [in_list|].
      flt_split q 75000; [in_list|].
      flt_split q 100000; [in_list|].
      flt_split q 125000; [in_list|].
      flt_split q 150000; [in_list|].
      flt_split q 200000; in_list.
    + unfold band_order. apply (bool_decide_unpack _). by vm_compute.
    + intros q. unfold pay_band. cbn [isna].
      flt_split q 50000; [band_iff|].
      flt_split q 75000; [band_iff|].
      flt_split q 100000; [band_iff|].
      flt_split q 125000; [band_iff|].
      flt_split q 150000; [band_iff|].
      flt_split q 200000; band_iff.
  - split_and!; try reflexivity.
    + intros pay. unfold categorize_pay_bands.
      destruct pay as [| | |q]; try solve [cbv; in_list].
      unfold categorize_pay. cbn [isna].
      flt_split q 40000; [in_list|].
      flt_split q 60000; [in_list|].
      flt_split q 80000; [in_list|].
      flt_split q 100000; [in_list|].
      flt_split q 150000; [in_list|].
      flt_split q 200000; in_list.
    + unfold categorize_pay_bands. apply (bool_decide_unpack _). by vm_compute.
    + intros q. unfold categorize_pay. cbn [isna].
      flt_split q 40000; [band_iff|].
      flt_split q 60000; [band_iff|].
      flt_split q 80000; [band_iff|].
      flt_split q 100000; [band_iff|].
      flt_split q 150000; [band_iff|].
      flt_split q 200000; band_iff.
Qed.

(** ** Pay parsing *)

Section PayParsing.

Variable parse_number : string → option pyfloat.

(** The sentinel is not a numeric string. *)
Hypothesis parse_sentinel : parse_number "REDACTED" = None.

Lemma to_numeric_coerce_total (cell : option string) :
  ∃ v, to_numeric parse_number ErrorsCoerce cell = Ok v.
Proof.
  destruct cell as [s|]; simpl; [|by eexists].
  destruct (parse_number s); by eexists.
Qed.

Lemma to_numeric_col_coerce_total (col : list (option string)) :
  ∃ vs, to_numeric_col parse_number ErrorsCoerce col = Ok vs
        ∧ length vs = length col.
Proof.
  induction col as [|cell col [vs [IH Hlen]]]; [by exists []|].
  destruct (to_numeric_coerce_total cell) as [v Hv].
  exists (v :: vs). cbn [to_numeric_col]. rewrite Hv, IH.
  split; [done|]. simpl. by rewrite Hlen.
Qed.

(** C3: a row whose raw pay is the sentinel 'REDACTED' has a missing
    [pay_numeric] and [is_redacted] true; a row whose raw pay is a
    numeric string has [is_redacted] false and [pay_numeric] the parsed
    value; and the conversion of a whole column with [errors='coerce']
    returns a value for every cell and never raises. *)
Theorem pay_derivation (r : Row) :
  (annualized_adjusted_basic_pay r = Some "REDACTED" →
     pay_numeric parse_number r = FNaN ∧ is_redacted r = true)
  ∧ (∀ s v, annualized_adjusted_basic_pay r = Some s →
       parse_number s = Some v →
       pay_numeric parse_number r = v ∧ is_redacted r = false)
  ∧ (∀ col, ∃ vs, to_numeric_col parse_number ErrorsCoerce col = Ok vs
                  ∧ length vs = length col).
Proof.
  split_and!.
  - intros Hraw. unfold pay_numeric, is_redacted, to_numeric.
    rewrite Hraw, parse_sentinel. done.
  - intros s v Hraw Hs. unfold pay_numeric, is_redacted, to_numeric.
    rewrite Hraw, Hs. split; [done|].
    apply bool_decide_eq_false. intros ->. congruence.
  - apply to_numeric_col_coerce_total.
Qed.

End PayParsing.


Lemma pay_derivation_witness :
  Decimal.parse "REDACTED" = None
  ∧ (pay_numeric Decimal.parse (mk_pay "REDACTED" 4) = FNaN
     ∧ is_redacted (mk_pay "REDACTED" 4) = true)
  ∧ (pay_numeric Decimal.parse (mk_pay "52000" 7) = FFin 52000
     ∧ is_redacted (mk_pay "52000" 7) = false).
Proof.
  split; [reflexivity|]. split.
  - apply (pay_derivation Decimal.parse eq_refl (mk_pay "REDACTED" 4)).
    reflexivity.
  - apply (proj1 (proj2 (pay_derivation Decimal.parse eq_refl
                           (mk_pay "52000" 7))) "52000" (FFin 52000));
      reflexivity.
Defined.

(** ** Rows with no employees *)

(** C1: in the embedded-dashboard pipeline, every row of the agency,
    state, education, appointment, age-bracket, STEM and supervisory tables
    has [employees > 0]: each of these tables holds exactly the groups whose
    sum of [count] is positive (the states table, those among them whose
    state is not 'REDACTED'), so a group whose sum is 0 is not in it. *)
Theorem dashboard_tables_positive (df : list Row) :
  (all_positive (Dashboard.agency_data df)
   ∧ positive_groups [agency] df (Dashboard.agency_data df))
  ∧ (all_positive (Dashboard.state_data df)
     ∧ ∀ g, g ∈ Dashboard.state_data df ↔
         g ∈ groupby_sum true
               [duty_station_state; duty_station_state_abbreviation] df
         ∧ 0 < employees g ∧ key1 g ≠ "REDACTED")
  ∧ (all_positive (Dashboard.edu_data df)
     ∧ positive_groups [education_level] df (Dashboard.edu_data df))
  ∧ (all_positive (Dashboard.appt_data df)
     ∧ positive_groups [appointment_type] df (Dashboard.appt_data df))
  ∧ (all_positive (Dashboard.age_data df)
     ∧ positive_groups [age_bracket] df (Dashboard.age_data df))
  ∧ (all_positive (Dashboard.stem_data df)
     ∧ positive_groups [stem_occupation] df (Dashboard.stem_data df))
  ∧ (all_positive (Dashboard.super_data df)
     ∧ positive_groups [supervisory_status] df (Dashboard.super_data df)).
Proof.
  assert (Hs : ∀ cols, positive_groups cols df
                 (sort_by_employees_desc (Dashboard.summary cols df)))
    by (intros; apply sorted_summary_positive).
  assert (Hr : ∀ order cols, positive_groups cols df
                 (sort_by_rank order (Dashboard.summary cols df))).
  { intros. eapply positive_groups_perm;
      [apply sort_by_rank_perm|apply summary_positive_groups]. }
  split_and!;
    try (first [apply Hs|apply Hr|apply summary_positive_groups]);
    try (eapply positive_groups_all_positive;
         first [apply Hs|apply Hr|apply summary_positive_groups]).
  - apply Forall_forall. intros g Hg. apply state_data_spec in Hg. tauto.
  - apply state_data_spec.
Qed.

(** The claim as the spec states it (no aggregate table of either script
    has a row with [employees <= 0]) fails on the full-export pipeline,
    which applies no filter: one source row with count 0 yields a row with
    count sum 0, whatever [observed] defaults to. *)
Lemma full_export_keeps_zero_group :
  ProcessData.agency_export true [mk_agency "AGENCY A" "AA" 0]
  = [mkAgg ["AGENCY A"; "AA"] 0]
  ∧ ProcessData.agency_export false [mk_agency "AGENCY A" "AA" 0]
    = [mkAgg ["AGENCY A"; "AA"] 0].
Proof. split; by vm_compute. Qed.

(** ** Totals *)

Lemma state_filter_iff (t : list AggRow) :
  filter (λ g, key1 g ≠ "REDACTED") t
  = filter (λ g, not_redacted (keys g) = true) t.
Proof.
  apply list_filter_iff. intros g. unfold key1, not_redacted.
  destruct (keys g); by rewrite bool_decide_eq_true.
Qed.

Lemma sum_state_data (df : list Row) :
  well_typed df → Forall (λ r, 0 <= count r) df →
  sum_employees (Dashboard.state_data df)
  = sum_count
      (keyed_where [duty_station_state; duty_station_state_abbreviation]
         not_redacted df).
Proof.
  intros Hty Hnn. unfold Dashboard.state_data, Dashboard.summary.
  rewrite (sum_employees_Permutation _ _
             (filter_Permutation _ _ _ (sort_by_employees_desc_perm _))).
  rewrite sum_filter_positive_where by by apply groupby_nonneg.
  rewrite state_filter_iff. by apply sum_groupby_where.
Qed.

(** C4: on a loaded frame (counts in [int32], fewer than 2^32 rows), the
    [employees] of every table of the full-export pipeline, and of the
    dashboard's pay-band table, add up to the [count] of the source rows
    whose grouping key is non-null; when moreover no count is negative,
    so do those of the dashboard's filtered tables, except that the states
    table adds up to the [count] of the rows with a non-null key whose
    state is not 'REDACTED'. *)
Theorem table_totals (parse_number : string → option pyfloat)
    (observed_default : bool) (df : list Row) :
  well_typed df →
  (sum_employees (ProcessData.agency_export observed_default df)
   = sum_count (keyed [agency; agency_code] df)
   ∧ sum_employees (ProcessData.state_export observed_default df)
     = sum_count
         (keyed [duty_station_state; duty_station_state_abbreviation] df)
   ∧ sum_employees (ProcessData.occupation_export observed_default df)
     = sum_count
         (keyed [occupational_group; occupational_series; stem_occupation] df)
   ∧ sum_employees (ProcessData.demographics_export observed_default df)
     = sum_count
         (keyed [age_bracket; education_level; ProcessData.tenure_category] df)
   ∧ sum_employees
       (ProcessData.pay_distribution parse_number observed_default df)
     = sum_count (keyed [ProcessData.pay_band_col parse_number; agency] df)
   ∧ sum_employees (ProcessData.appointment_export observed_default df)
     = sum_count (keyed [appointment_type; agency] df))
  ∧ sum_employees (Dashboard.pay_dist parse_number df)
    = sum_count (keyed [Dashboard.pay_band_col parse_number] df)
  ∧ (Forall (λ r, 0 <= count r) df →
     sum_employees (Dashboard.agency_data df) = sum_count (keyed [agency] df)
     ∧ sum_employees (Dashboard.edu_data df)
       = sum_count (keyed [education_level] df)
     ∧ sum_employees (Dashboard.appt_data df)
       = sum_count (keyed [appointment_type] df)
     ∧ sum_employees (Dashboard.age_data df)
       = sum_count (keyed [age_bracket] df)
     ∧ sum_employees (Dashboard.stem_data df)
       = sum_count (keyed [stem_occupation] df)
     ∧ sum_employees (Dashboard.super_data df)
       = sum_count (keyed [supervisory_status] df)
     ∧ sum_employees (Dashboard.state_data df)
       = sum_count
           (keyed_where [duty_station_state; duty_station_state_abbreviation]
              not_redacted df)).
Proof.
  intros Hty. split_and!; try (by apply sum_groupby).
  - unfold Dashboard.pay_dist.
    rewrite (sum_employees_Permutation _ _ (sort_by_rank_perm _ _)).
    by apply sum_groupby.
  - intros Hnn.
    assert (Hs : ∀ cols, sum_employees
                   (sort_by_employees_desc (Dashboard.summary cols df))
                 = sum_count (keyed cols df)).
    { intros cols.
      rewrite (sum_employees_Permutation _ _ (sort_by_employees_desc_perm _)).
      by apply sum_summary. }
    split_and!; try apply Hs; try (by apply sum_summary).
    + unfold Dashboard.age_data.
      rewrite (sum_employees_Permutation _ _ (sort_by_rank_perm _ _)).
      by apply sum_summary.
    + by apply sum_state_data.
Qed.


(** The claim as the spec states it fails on the dashboard's tables: the
    states table leaves the 'REDACTED' group out of its total, and a group
    whose counts sum to a negative number is left out of any filtered
    table. *)
Lemma totals_counterexample :
  (sum_employees
     (Dashboard.state_data
        [mk_state "REDACTED" "REDACTED" 5; mk_state "TEXAS" "TX" 3]) = 3
   ∧ sum_count
       (keyed [duty_station_state; duty_station_state_abbreviation]
          [mk_state "REDACTED" "REDACTED" 5; mk_state "TEXAS" "TX" 3]) = 8)
  ∧ (sum_employees (Dashboard.agency_data [mk_agency "AGENCY A" "AA" (-5)]) = 0
     ∧ sum_count (keyed [agency] [mk_agency "AGENCY A" "AA" (-5)]) = -5).
Proof. split_and!; by vm_compute. Qed.

Lemma table_totals_witness :
  let df := [mk_state "REDACTED" "REDACTED" 5; mk_state "TEXAS" "TX" 3;
             mk_agency "AGENCY A" "AA" 10; mk_agency "AGENCY A" "AA" 20;
             mk_agency "AGENCY A" "AA" 0] in
  well_typed df
  ∧ Forall (λ r, 0 <= count r) df
  ∧ sum_employees (ProcessData.agency_export false df) = 30
  ∧ sum_employees (Dashboard.agency_data df) = 30
  ∧ sum_employees (Dashboard.state_data df) = 3.
Proof.
  intros df.
  assert (Hty : well_typed df).
  { split; [|by vm_compute].
    repeat constructor; by vm_compute. }
  assert (Hnn : Forall (λ r, 0 <= count r) df)
    by (repeat constructor; by vm_compute).
  pose proof (table_totals Decimal.parse false df Hty) as (Hp & _ & Hd).
  specialize (Hd Hnn).
  split_and!; [done|done|..].
  - destruct Hp as [-> _]. by vm_compute.
  - destruct Hd as [-> _]. by vm_compute.
  - destruct Hd as (_ & _ & _ & _ & _ & _ & ->). by vm_compute.
Defined.

(** ** Keys and ranks *)

Lemma NoDup_keys_groupby (observed : bool) (cols : list column) (df : list Row) :
  NoDup (keys <$> groupby_sum observed cols df).
Proof. rewrite keys_groupby_sum. apply NoDup_group_keys. Qed.

Lemma NoDup_keys_filter (P : AggRow → Prop) `{!∀ g, Decision (P g)}
    (t : list AggRow) :
  NoDup (keys <$> t) → NoDup (keys <$> filter P t).
Proof.
  intros Hnd. eapply (sublist_NoDup _ (keys <$> t));
    first [exact Hnd|by apply fmap_sublist, sublist_filter].
Qed.

Lemma NoDup_keys_perm (t t' : list AggRow) :
  t' ≡ₚ t → NoDup (keys <$> t) → NoDup (keys <$> t').
Proof. intros HP. by rewrite HP. Qed.

Lemma NoDup_keys_summary (cols : list column) (df : list Row) :
  NoDup (keys <$> Dashboard.summary cols df).
Proof. apply NoDup_keys_filter, NoDup_keys_groupby. Qed.

(** Under a single key column the key of a group is the one-element list
    of its value. *)
Lemma key_of_single (c : column) (r : Row) :
  key_of [c] r = (λ a, [a]) <$> c r.
Proof. unfold key_of. simpl. by destruct (c r). Qed.

Lemma single_key_shape (observed : bool) (c : column) (df : list Row)
    (k : list string) :
  k ∈ group_keys observed [c] df → ∃ a, k = [a].
Proof.
  destruct observed.
  - intros (r & _ & Hk)%elem_of_observed_keys.
    rewrite key_of_single in Hk. destruct (c r) as [a|]; [|done].
    exists a. by simplify_eq/=.
  - simpl. intros (a & Hk & _)%list_elem_of_bind.
    apply list_elem_of_singleton in Hk. by exists a.
Qed.

Lemma NoDup_key1 (c : column) (df : list Row) (t : list AggRow) :
  (∀ g, g ∈ t → keys g ∈ group_keys true [c] df) →
  NoDup (keys <$> t) → NoDup (key1 <$> t).
Proof.
  intros Hin Hnd.
  assert (Heq : key1 <$> t = (λ k, default "" (head k)) <$> (keys <$> t)).
  { rewrite <- list_fmap_compose. apply list_fmap_ext.
    intros _ g _. unfold key1. simpl. by destruct (keys g). }
  rewrite Heq. apply NoDup_fmap_2_strong; [|done].
  intros k1 k2 (g1 & -> & Hg1)%list_elem_of_fmap
    (g2 & -> & Hg2)%list_elem_of_fmap.
  destruct (single_key_shape true c df _ (Hin _ Hg1)) as [a1 ->].
  destruct (single_key_shape true c df _ (Hin _ Hg2)) as [a2 ->].
  simpl. by intros ->.
Qed.

Lemma list_index_lookup (x : string) (order : list string) (i : nat) :
  list_index x order = Some i → order !! i = Some x.
Proof.
  revert i. induction order as [|y order IH]; intros i; simpl; [done|].
  destruct (decide (x = y)) as [->|]; [by intros [= <-]|].
  destruct (list_index x order) as [j|]; simpl; [|done].
  intros [= <-]. by apply IH.
Qed.

Lemma rank_of_inj (order : list string) (x y : string) :
  x ∈ order → y ∈ order → rank_of order x = rank_of order y → x = y.
Proof.
  intros Hx Hy. unfold rank_of.
  destruct (list_index x order) as [i|] eqn:Hi;
    [|by apply list_index_None in Hi].
  destruct (list_index y order) as [j|] eqn:Hj;
    [|by apply list_index_None in Hj].
  simpl. intros ->.
  apply list_index_lookup in Hi, Hj. congruence.
Qed.

Lemma band_order_NoDup : NoDup band_order.
Proof. apply (bool_decide_unpack _). by vm_compute. Qed.

Lemma band_order_sorted :
  StronglySorted
    (λ a b : string, (rank_of band_order a <= rank_of band_order b)%nat)
    band_order.
Proof.
  unfold band_order.
  repeat first
    [ apply SSorted_nil | apply SSorted_cons | apply Forall_nil_2
    | apply Forall_cons_2 | (vm_compute; lia) ].
Qed.











(** ** Order of the rows *)



(** ** The states table *)

(** C9: no row of the dashboard's states table has the state 'REDACTED',
    whatever its count: the table holds exactly the (state, abbreviation)
    groups with a positive sum of [count] and a state other than
    'REDACTED', each once, and [total_states] is the number of these
    groups. *)
Theorem redacted_state_excluded (df : list Row) :
  (∀ g, g ∈ Dashboard.state_data df ↔
     g ∈ groupby_sum true
           [duty_station_state; duty_station_state_abbreviation] df
     ∧ 0 < employees g ∧ key1 g ≠ "REDACTED")
  ∧ (∀ (a : string) (n : Z),
       mkAgg ["REDACTED"; a] n ∉ Dashboard.state_data df)
  ∧ NoDup (keys <$> Dashboard.state_data df)
  ∧ o_total_states (Dashboard.overall df)
    = length
        (filter (λ g, 0 < employees g ∧ key1 g ≠ "REDACTED")
           (groupby_sum true
              [duty_station_state; duty_station_state_abbreviation] df)).
Proof.
  split_and!.
  - apply state_data_spec.
  - intros a n Hin. apply state_data_spec in Hin as (_ & _ & Hne). done.
  - unfold Dashboard.state_data, Dashboard.summary, filter_positive.
    assert (Hnd : NoDup (keys <$> groupby_sum true
              [duty_station_state; duty_station_state_abbreviation] df))
      by (rewrite keys_groupby_sum; apply NoDup_group_keys).
    eapply NoDup_fmap_2_strong.
    + intros g1 g2 Hg1 Hg2 Hk.
      apply state_data_spec in Hg1 as (Hg1 & _).
      apply state_data_spec in Hg2 as (Hg2 & _).
      apply elem_of_groupby_sum in Hg1 as [_ He1].
      apply elem_of_groupby_sum in Hg2 as [_ He2].
      destruct g1, g2. simpl in *. congruence.
    + apply NoDup_filter.
      rewrite sort_by_employees_desc_perm.
      apply NoDup_filter. by apply NoDup_fmap_1 in Hnd.
  - cbn [o_total_states Dashboard.overall].
    unfold Dashboard.state_data, Dashboard.summary, filter_positive.
    rewrite (filter_Permutation _ _ _ (sort_by_employees_desc_perm _)).
    rewrite list_filter_filter. f_equal.
    apply list_filter_iff. intros g. tauto.
Qed.

(** Three rows of one agency with counts 10, 20 and 0 make one row of 30
    employees. *)
Example agency_a_once :
  Dashboard.agency_data
    [mk_agency "AGENCY A" "AA" 10; mk_agency "AGENCY A" "AA" 20;
     mk_agency "AGENCY A" "AA" 0]
  = [mkAgg ["AGENCY A"] 30].
Proof. by vm_compute. Qed.

(** A 'REDACTED' group of 5 employees is dropped and not counted. *)
Example redacted_state_dropped :
  Dashboard.state_data
    [mk_state "REDACTED" "REDACTED" 5; mk_state "TEXAS" "TX" 3;
     mk_state "OHIO" "OH" 0]
  = [mkAgg ["TEXAS"; "TX"] 3]
  ∧ o_total_states
      (Dashboard.overall
         [mk_state "REDACTED" "REDACTED" 5; mk_state "TEXAS" "TX" 3;
          mk_state "OHIO" "OH" 0]) = 1%nat.
Proof. split; by vm_compute. Qed.

(** ** Observed key combinations *)

(** With [observed=True], as every [groupby] of the dashboard script has
    it, each row of the grouped table carries the key of some source
    row. *)
Lemma groupby_observed_only (cols : list column) (df : list Row) (g : AggRow) :
  g ∈ groupby_sum true cols df → ∃ r, r ∈ df ∧ key_of cols r = Some (keys g).
Proof.
  intros [Hk _]%elem_of_groupby_sum. by apply elem_of_observed_keys.
Qed.


(** C5: under the default [observed=False] of pandas before 3.0, the
    demographics table of the full-export pipeline, whose [groupby] passes
    no [observed], has a row for the bracket "20-24" with "MASTERS", a
    combination that no source row has; with [observed=True] it has not. *)
Lemma demographics_cross_product :
  ProcessData.demographics_export false
    [mk_demo "20-24" "BACHELORS" 2 3; mk_demo "25-29" "MASTERS" 3 4]
  = [mkAgg ["20-24"; "BACHELORS"; "1-5 years"] 3;
     mkAgg ["20-24"; "MASTERS"; "1-5 years"] 0;
     mkAgg ["25-29"; "BACHELORS"; "1-5 years"] 0;
     mkAgg ["25-29"; "MASTERS"; "1-5 years"] 4]
  ∧ Forall
      (λ r, key_of [age_bracket; education_level; ProcessData.tenure_category] r
            ≠ Some ["20-24"; "MASTERS"; "1-5 years"])
      [mk_demo "20-24" "BACHELORS" 2 3; mk_demo "25-29" "MASTERS" 3 4]
  ∧ ProcessData.demographics_export true
      [mk_demo "20-24" "BACHELORS" 2 3; mk_demo "25-29" "MASTERS" 3 4]
    = [mkAgg ["20-24"; "BACHELORS"; "1-5 years"] 3;
       mkAgg ["25-29"; "MASTERS"; "1-5 years"] 4].
Proof.
  split_and!; [by vm_compute| |by vm_compute].
  repeat constructor; by vm_compute.
Qed.

(** ** Writing files *)

Section Writes.

Variable dir : string.


Lemma apply_writes_cons (w : string * content) (ws : list (string * content))
    (m : gmap string content) :
  apply_writes dir (w :: ws) m
  = apply_writes dir ws (<[ path_join dir w.1 := w.2 ]> m).
Proof. done. Qed.

Lemma write_all_ok (ws : list (string * content)) (fs : FS) :
  dir ∈ dirs fs →
  write_all dir ws fs = (mkFS (dirs fs) (apply_writes dir ws (files fs)), None).
Proof.
  revert fs. induction ws as [|[name c] ws IH]; intros fs Hd.
  - by destruct fs.
  - cbn [write_all]. unfold open_write. rewrite decide_True by done.
    rewrite IH by done. by rewrite apply_writes_cons.
Qed.

Lemma apply_writes_union (ws : list (string * content))
    (m : gmap string content) :
  apply_writes dir ws m = apply_writes dir ws ∅ ∪ m.
Proof.
  revert m. induction ws as [|w ws IH]; intros m.
  - simpl. by rewrite (left_id_L ∅ (∪)).
  - rewrite !apply_writes_cons.
    rewrite (IH (<[_ := _]> m)), (IH (<[_ := _]> ∅)).
    rewrite (insert_union_singleton_l m), insert_empty.
    by rewrite (assoc_L (∪)).
Qed.

Lemma apply_writes_idem (ws : list (string * content))
    (m : gmap string content) :
  apply_writes dir ws (apply_writes dir ws m) = apply_writes dir ws m.
Proof.
  rewrite (apply_writes_union ws (apply_writes dir ws m)).
  rewrite (apply_writes_union ws m).
  by rewrite (assoc_L (∪)), (idemp_L (∪)).
Qed.

Lemma apply_writes_app (ws1 ws2 : list (string * content))
    (m : gmap string content) :
  apply_writes dir (ws1 ++ ws2) m = apply_writes dir ws2 (apply_writes dir ws1 m).
Proof. unfold apply_writes. by rewrite foldl_app. Qed.

End Writes.

Lemma mkdir_idem (d : string) (fs : FS) : mkdir d (mkdir d fs) = mkdir d fs.
Proof.
  unfold mkdir. cbn [dirs files].
  by rewrite (assoc_L (∪)), (idemp_L (∪)).
Qed.

Lemma mkdir_elem (d : string) (fs : FS) : d ∈ dirs (mkdir d fs).
Proof. unfold mkdir. cbn [dirs]. set_solver. Qed.

Section ProcessDataRuns.

Variable parse_number : string → option pyfloat.
Variable observed_default : bool.

(** A run on a loaded frame: all six tables are written; the statistics
    file is written exactly when [overall_stats] returns. *)
Lemma main_loaded (df : list Row) (fs : FS) :
  ProcessData.main parse_number observed_default (Some df) fs =
  match ProcessData.overall_stats df with
  | Raise e =>
      mkRun
        (mkFS ({[ PROCESSED_DATA_PATH ]} ∪ dirs fs)
           (apply_writes PROCESSED_DATA_PATH (ProcessData.csv_exports parse_number observed_default df) (files fs)))
        ProcessData.banner [traceback_line e] (Uncaught e)
  | Ok s =>
      mkRun
        (mkFS ({[ PROCESSED_DATA_PATH ]} ∪ dirs fs)
           (apply_writes PROCESSED_DATA_PATH
              (ProcessData.csv_exports parse_number observed_default df ++ [("overall_stats.json", Json s)])
              (files fs)))
        ProcessData.banner [] Finished
  end.
Proof.
  unfold ProcessData.main.
  rewrite write_all_ok by apply mkdir_elem.
  unfold ProcessData.export_overall.
  destruct (ProcessData.overall_stats df) as [s|e]; [|done].
  rewrite write_all_ok by (cbn [dirs]; apply mkdir_elem).
  by rewrite apply_writes_app.
Qed.

Lemma main_idempotent (raw : option (list Row)) (fs : FS) :
  ProcessData.main parse_number observed_default raw
    (fs_after (ProcessData.main parse_number observed_default raw fs))
  = ProcessData.main parse_number observed_default raw fs.
Proof.
  destruct raw as [df|].
  - rewrite !main_loaded.
    destruct (ProcessData.overall_stats df) as [s|e]; cbn [fs_after dirs files];
      by rewrite apply_writes_idem, (assoc_L (∪)), (idemp_L (∪)).
  - unfold ProcessData.main. cbn [fs_after]. by rewrite mkdir_idem.
Qed.

End ProcessDataRuns.

Lemma dashboard_main_idempotent (parse_number : string → option pyfloat)
    (raw : option (list Row)) (fs : FS) :
  Dashboard.main parse_number raw (fs_after (Dashboard.main parse_number raw fs))
  = Dashboard.main parse_number raw fs.
Proof.
  destruct raw as [df|]; [|done].
  unfold Dashboard.main, open_write.
  destruct (decide (OUTPUT_PATH ∈ dirs fs)) as [Hd|Hd]; cbn [fs_after].
  - unfold write_file. cbn [dirs files].
    rewrite decide_True by done. by rewrite insert_insert_eq.
  - by rewrite decide_False.
Qed.

(** ** Running a pipeline twice *)

(** C7: a second run of either pipeline on the same input, started from
    the file system the first run left, ends the same way and leaves the
    same file system: the files it writes are replaced whole, so each holds
    what the run serialised into it, whatever it held before. *)
Theorem pipelines_idempotent (parse_number : string → option pyfloat)
    (observed_default : bool) (raw : option (list Row)) (fs : FS) :
  Dashboard.main parse_number raw (fs_after (Dashboard.main parse_number raw fs))
  = Dashboard.main parse_number raw fs
  ∧ ProcessData.main parse_number observed_default raw
      (fs_after (ProcessData.main parse_number observed_default raw fs))
    = ProcessData.main parse_number observed_default raw fs
  ∧ (∀ df, raw = Some df → OUTPUT_PATH ∈ dirs fs →
       files (fs_after (Dashboard.main parse_number raw fs))
       = <[ path_join OUTPUT_PATH "data.js" :=
              Js (Dashboard.data parse_number df) ]> (files fs))
  ∧ (∀ df, raw = Some df →
       ∃ ws, files (fs_after (ProcessData.main parse_number observed_default
                                raw fs))
             = apply_writes PROCESSED_DATA_PATH
                 (ProcessData.csv_exports parse_number observed_default df ++ ws)
                 (files fs)).
Proof.
  split_and!.
  - apply dashboard_main_idempotent.
  - apply main_idempotent.
  - intros df -> Hd. unfold Dashboard.main, open_write.
    by rewrite decide_True.
  - intros df ->. rewrite main_loaded.
    destruct (ProcessData.overall_stats df) as [s|e]; cbn [fs_after files].
    + by eexists.
    + exists []. by rewrite app_nil_r.
Qed.

(** ** A missing input file *)

(** C8: when there is no file at the input path, either pipeline stops
    before it writes any file, leaves a message that names the path, and
    exits with status 1: the full export prints its own error line and
    calls [sys.exit(1)], having only created its output directory; the
    dashboard script dies of the [FileNotFoundError] that [read_csv]
    raises. *)
Theorem missing_input_fails (parse_number : string → option pyfloat)
    (observed_default : bool) (fs : FS) :
  (files (fs_after (ProcessData.main parse_number observed_default None fs))
   = files fs
   ∧ dirs (fs_after (ProcessData.main parse_number observed_default None fs))
     = {[ PROCESSED_DATA_PATH ]} ∪ dirs fs
   ∧ ended (ProcessData.main parse_number observed_default None fs) = SysExit 1
   ∧ exit_status (ended (ProcessData.main parse_number observed_default None fs))
     = 1
   ∧ last (stdout (ProcessData.main parse_number observed_default None fs))
     = Some ("ERROR: Raw data file not found at " ++ RAW_DATA_PATH))
  ∧ (fs_after (Dashboard.main parse_number None fs) = fs
     ∧ ended (Dashboard.main parse_number None fs)
       = Uncaught (FileNotFoundError RAW_DATA_PATH)
     ∧ exit_status (ended (Dashboard.main parse_number None fs)) = 1
     ∧ stderr (Dashboard.main parse_number None fs)
       = ["FileNotFoundError: [Errno 2] No such file or directory: '"
          ++ RAW_DATA_PATH ++ "'"]).
Proof. split_and!; reflexivity. Qed.

(** ** The snapshot date *)

Lemma apply_writes_lookup_other (dir : string) (ws : list (string * content))
    (m : gmap string content) (p : string) :
  Forall (λ w, path_join dir w.1 ≠ p) ws →
  apply_writes dir ws m !! p = m !! p.
Proof.
  intros Hws. revert m. induction Hws as [|w ws Hw _ IH]; intros m; [done|].
  rewrite apply_writes_cons, IH. by apply lookup_insert_ne.
Qed.

(** C10: [overall_stats] reads [snapshot_date] from the first row.  On a
    frame with no rows the lookup raises [IndexError]; the run dies of it
    after the six tables are written, and the file [overall_stats.json] is
    left as it was before the run.  On a frame with a first row the step
    returns, [snapshot_date] is that row's [snapshot_yyyymm], and the file
    holds the statistics. *)
Theorem snapshot_date_first_row (parse_number : string → option pyfloat)
    (observed_default : bool) (fs : FS) :
  (ProcessData.overall_stats []
   = Raise (IndexError "single positional indexer is out-of-bounds")
   ∧ ended (ProcessData.main parse_number observed_default (Some []) fs)
     = Uncaught (IndexError "single positional indexer is out-of-bounds")
   ∧ files (fs_after (ProcessData.main parse_number observed_default
                        (Some []) fs))
       !! path_join PROCESSED_DATA_PATH "overall_stats.json"
     = files fs !! path_join PROCESSED_DATA_PATH "overall_stats.json")
  ∧ (∀ (r : Row) (df : list Row),
       ∃ s, ProcessData.overall_stats (r :: df) = Ok s
            ∧ snapshot_date s = snapshot_yyyymm r
            ∧ ended (ProcessData.main parse_number observed_default
                       (Some (r :: df)) fs) = Finished
            ∧ files (fs_after (ProcessData.main parse_number observed_default
                                 (Some (r :: df)) fs))
                !! path_join PROCESSED_DATA_PATH "overall_stats.json"
              = Some (Json s)).
Proof.
  split; [split_and!|].
  - reflexivity.
  - by rewrite main_loaded.
  - rewrite main_loaded. cbn [ProcessData.overall_stats ProcessData.iloc0
      fmap list_fmap fs_after files].
    apply apply_writes_lookup_other.
    repeat constructor; by vm_compute.
  - intros r df. eexists. split; [reflexivity|]. split; [reflexivity|].
    rewrite main_loaded. cbn [ProcessData.overall_stats ProcessData.iloc0
      fmap list_fmap fs_after files ended].
    split; [reflexivity|].
    rewrite apply_writes_app, apply_writes_cons.
    cbn [apply_writes foldl fst snd]. by rewrite lookup_insert_eq.
Qed.

(** * Further properties of the two scripts *)

(** ** Tenure bands *)

(** X1: [categorize_tenure] is a total function into its seven labels: a
    missing tenure is "Unknown", and each other label is exactly one
    half-open interval of years between the thresholds 1, 5, 10, 20 and
    30. *)
Theorem tenure_partition :
  (categorize_tenure FNaN = "Unknown"
   ∧ (∀ years, categorize_tenure years ∈ tenure_bands)
   ∧ NoDup tenure_bands
   ∧ (∀ q : Q,
        (categorize_tenure (FFin q) = "< 1 year" ↔ q < 1)
        ∧ (categorize_tenure (FFin q) = "1-5 years" ↔ 1 <= q ∧ q < 5)
        ∧ (categorize_tenure (FFin q) = "5-10 years" ↔ 5 <= q ∧ q < 10)
        ∧ (categorize_tenure (FFin q) = "10-20 years" ↔ 10 <= q ∧ q < 20)
        ∧ (categorize_tenure (FFin q) = "20-30 years" ↔ 20 <= q ∧ q < 30)
        ∧ (categorize_tenure (FFin q) = "30+ years" ↔ 30 <= q)
        ∧ categorize_tenure (FFin q) ≠ "Unknown")
   ∧ categorize_tenure FNegInf = "< 1 year"
   ∧ categorize_tenure FPosInf = "30+ years")%Q.
Proof.
  split_and!; try reflexivity.
  - intros years. unfold tenure_bands.
    destruct years as [| | |q]; try solve [cbv; in_list].
    unfold categorize_tenure. cbn [isna].
    flt_split q 1; [in_list|].
    flt_split q 5; [in_list|].
    flt_split q 10; [in_list|].
    flt_split q 20; [in_list|].
    flt_split q 30; in_list.
  - unfold tenure_bands. apply (bool_decide_unpack _). by vm_compute.
  - intros q. unfold categorize_tenure. cbn [isna].
    flt_split q 1; [band_iff|].
    flt_split q 5; [band_iff|].
    flt_split q 10; [band_iff|].
    flt_split q 20; [band_iff|].
    flt_split q 30; band_iff.
Qed.

(** ** One row per group *)

(** X2: no table of either script has two rows with the same grouping key:
    each group that a table keeps appears in it exactly once. *)
Theorem tables_one_row_per_key (parse_number : string → option pyfloat)
    (observed_default : bool) (df : list Row) :
  (NoDup (keys <$> Dashboard.agency_data df)
   ∧ NoDup (keys <$> Dashboard.state_data df)
   ∧ NoDup (keys <$> Dashboard.pay_dist parse_number df)
   ∧ NoDup (keys <$> Dashboard.edu_data df)
   ∧ NoDup (keys <$> Dashboard.appt_data df)
   ∧ NoDup (keys <$> Dashboard.age_data df)
   ∧ NoDup (keys <$> Dashboard.stem_data df)
   ∧ NoDup (keys <$> Dashboard.super_data df))
  ∧ (NoDup (keys <$> ProcessData.agency_export observed_default df)
     ∧ NoDup (keys <$> ProcessData.state_export observed_default df)
     ∧ NoDup (keys <$> ProcessData.occupation_export observed_default df)
     ∧ NoDup (keys <$> ProcessData.demographics_export observed_default df)
     ∧ NoDup (keys <$> ProcessData.pay_distribution parse_number
                         observed_default df)
     ∧ NoDup (keys <$> ProcessData.appointment_export observed_default df)).
Proof.
  split; split_and!;
    try apply NoDup_keys_groupby;
    try apply NoDup_keys_summary;
    try (eapply NoDup_keys_perm;
         [first [apply sort_by_employees_desc_perm|apply sort_by_rank_perm]|];
         first [apply NoDup_keys_summary|apply NoDup_keys_groupby]).
  apply NoDup_keys_filter.
  eapply NoDup_keys_perm; [apply sort_by_employees_desc_perm|].
  apply NoDup_keys_summary.
Qed.

(** ** The fifty largest agencies *)

(** X3: [agencies] is the first fifty rows of [allAgencies], or all of them
    when there are fewer; no agency left out of it has more employees
    than one that is in it. *)
Theorem top_agencies_largest (parse_number : string → option pyfloat)
    (df : list Row) :
  (d_agencies (Dashboard.data parse_number df)
   ++ drop 50 (d_allAgencies (Dashboard.data parse_number df)))%list
  = d_allAgencies (Dashboard.data parse_number df)
  ∧ length (d_agencies (Dashboard.data parse_number df))
    = (50 `min` length (d_allAgencies (Dashboard.data parse_number df)))%nat
  ∧ (∀ g h,
       g ∈ d_agencies (Dashboard.data parse_number df) →
       h ∈ drop 50 (d_allAgencies (Dashboard.data parse_number df)) →
       employees h <= employees g).
Proof.
  cbn [d_agencies d_allAgencies Dashboard.data].
  split_and!.
  - apply take_drop.
  - apply length_take.
  - intros g h Hg Hh.
    pose proof (sort_by_employees_desc_sorted
                  (Dashboard.summary [agency] df)) as Hs.
    fold (Dashboard.agency_data df) in Hs.
    rewrite <- (take_drop 50 (Dashboard.agency_data df)) in Hs.
    by apply (StronglySorted_app_1_elem_of _ _ _ g h Hs).
Qed.

(** ** Counting agencies *)

Lemma remove_dups_NoDup {A} `{EqDecision A} (l : list A) :
  NoDup l → remove_dups l = l.
Proof.
  induction 1 as [|x l Hx _ IH]; [done|].
  simpl. destruct (decide_rel (∈) x l); [done|]. by rewrite IH.
Qed.

Lemma agency_data_keys (df : list Row) (g : AggRow) :
  g ∈ Dashboard.agency_data df → keys g ∈ group_keys true [agency] df.
Proof.
  intros Hg. apply (sorted_summary_positive [agency] df g) in Hg as [Hg _].
  by apply elem_of_groupby_sum in Hg as [? _].
Qed.

(** X4: [total_agencies] of the dashboard is the number of rows of
    [allAgencies], that is, of agencies whose counts sum to a positive
    number; it never exceeds the [total_agencies] of the full export, which
    counts every agency named in the data. *)
Theorem total_agencies_counts (parse_number : string → option pyfloat)
    (df : list Row) :
  o_total_agencies (Dashboard.overall df)
  = length (d_allAgencies (Dashboard.data parse_number df))
  ∧ (o_total_agencies (Dashboard.overall df)
     <= ProcessData.nunique agency df)%nat.
Proof.
  cbn [o_total_agencies Dashboard.overall d_allAgencies Dashboard.data].
  assert (Hlen : length (remove_dups (key1 <$> Dashboard.agency_data df))
                 = length (Dashboard.agency_data df)).
  { rewrite remove_dups_NoDup, length_fmap; [done|].
    apply (NoDup_key1 agency df); [apply agency_data_keys|].
    eapply NoDup_keys_perm; [apply sort_by_employees_desc_perm|].
    apply NoDup_keys_summary. }
  split; [done|]. rewrite Hlen.
  unfold ProcessData.nunique.
  rewrite <- (length_fmap (λ a : string, [a]) (remove_dups (omap agency df))).
  rewrite <- (length_fmap keys (Dashboard.agency_data df)).
  apply submseteq_length, NoDup_submseteq.
  - eapply NoDup_keys_perm; [apply sort_by_employees_desc_perm|].
    apply NoDup_keys_summary.
  - intros k (g & -> & Hg)%list_elem_of_fmap.
    apply agency_data_keys, elem_of_observed_keys in Hg as (r & Hr & Hk).
    rewrite key_of_single in Hk.
    destruct (agency r) as [a|] eqn:Ha; [|done]. simplify_eq/=.
    apply list_elem_of_fmap. exists a. split; [done|].
    apply elem_of_remove_dups, list_elem_of_omap. eauto.
Qed.

(** ** Tables against the grand total *)

Lemma sum_count_keyed_where_le (cols : list column) (p : list string → bool)
    (df : list Row) :
  Forall (λ r, 0 <= count r) df →
  sum_count (keyed_where cols p df) <= sum_count df.
Proof.
  unfold sum_count, keyed_where.
  induction 1 as [|r df Hr _ IH]; [done|].
  rewrite filter_cons. destruct (decide _); rewrite ?fmap_cons; cbn [sumZ]; lia.
Qed.

Lemma keyed_all (cols : list column) (df : list Row) :
  Forall (λ r, is_Some (key_of cols r)) df → keyed cols df = df.
Proof.
  unfold keyed, keyed_where.
  induction 1 as [|r df [k Hk] _ IH]; [done|].
  rewrite filter_cons, Hk. cbn [from_option].
  rewrite decide_True by done. by rewrite IH.
Qed.

(** The totals of the three dashboard tables compared with the grand
    total below. *)
Lemma table_totals_aux (parse_number : string → option pyfloat)
    (df : list Row) :
  well_typed df →
  sum_employees (Dashboard.pay_dist parse_number df)
  = sum_count (keyed [Dashboard.pay_band_col parse_number] df)
  ∧ (Forall (λ r, 0 <= count r) df →
     sum_employees (Dashboard.agency_data df) = sum_count (keyed [agency] df)
     ∧ sum_employees (Dashboard.state_data df)
       = sum_count
           (keyed_where [duty_station_state; duty_station_state_abbreviation]
              not_redacted df)).
Proof.
  intros Hty. split.
  - unfold Dashboard.pay_dist.
    rewrite (sum_employees_Permutation _ _ (sort_by_rank_perm _ _)).
    by apply sum_groupby.
  - intros Hnn. split; [|by apply sum_state_data].
    unfold Dashboard.agency_data.
    rewrite (sum_employees_Permutation _ _ (sort_by_employees_desc_perm _)).
    by apply sum_summary.
Qed.

(** X5: on a loaded frame the pay-band table of the dashboard accounts for
    every employee: its rows add up to [total_employees].  When no count
    is negative, the agency and state tables add up to at most
    [total_employees], and the agency table to exactly that when every row
    names its agency. *)
Theorem tables_against_total (parse_number : string → option pyfloat)
    (df : list Row) :
  well_typed df →
  sum_employees (Dashboard.pay_dist parse_number df)
  = o_total_employees (Dashboard.overall df)
  ∧ (Forall (λ r, 0 <= count r) df →
     sum_employees (Dashboard.agency_data df)
     <= o_total_employees (Dashboard.overall df)
     ∧ sum_employees (Dashboard.state_data df)
       <= o_total_employees (Dashboard.overall df)
     ∧ (Forall (λ r, is_Some (agency r)) df →
        sum_employees (Dashboard.agency_data df)
        = o_total_employees (Dashboard.overall df))).
Proof.
  intros Hty.
  destruct (table_totals_aux parse_number df Hty) as (Hpay & Hd).
  cbn [o_total_employees Dashboard.overall].
  rewrite (wrap_sum_count df Hty). fold (sum_count df).
  split.
  - rewrite Hpay. f_equal. apply keyed_all, Forall_forall.
    intros r _. rewrite key_of_single. by eexists.
  - intros Hnn. destruct (Hd Hnn) as (Hag & Hst).
    rewrite Hag, Hst. split_and!.
    + by apply sum_count_keyed_where_le.
    + by apply sum_count_keyed_where_le.
    + intros Hall. f_equal. apply keyed_all.
      eapply Forall_impl; [exact Hall|].
      intros r [a Ha]. rewrite key_of_single, Ha. by eexists.
Qed.

(** ** The pay distribution, band by band *)

Lemma pay_band_listed (pay : pyfloat) : pay_band pay ∈ band_order.
Proof.
  unfold band_order.
  destruct pay as [| | |q]; try solve [cbv; in_list].
  unfold pay_band. cbn [isna].
  flt_split q 50000; [in_list|].
  flt_split q 75000; [in_list|].
  flt_split q 100000; [in_list|].
  flt_split q 125000; [in_list|].
  flt_split q 150000; [in_list|].
  flt_split q 200000; in_list.
Qed.

(** The rows of a table grouped by one column carry, as [key1], exactly
    the values of that column. *)
Lemma key1_groupby_single (c : column) (df : list Row) (b : string) :
  b ∈ key1 <$> groupby_sum true [c] df ↔ ∃ r, r ∈ df ∧ c r = Some b.
Proof.
  rewrite list_elem_of_fmap. split.
  - intros (g & -> & Hg).
    apply groupby_observed_only in Hg as (r & Hr & Hk).
    rewrite key_of_single in Hk. exists r. split; [done|].
    destruct (c r) as [a|]; [|done]. simplify_eq/=.
    unfold key1. by rewrite <- Hk.
  - intros (r & Hr & Hc).
    exists (mkAgg [b] (count_sum [c] df [b])). split; [done|].
    apply elem_of_groupby_sum. split; [|done].
    apply elem_of_observed_keys. exists r. split; [done|].
    by rewrite key_of_single, Hc.
Qed.

(** X6: the band column of [payDistribution] is [band_order] with the bands
    that no row falls in left out: the bands that occur appear once each,
    in the order of [band_order], and the fallback rank 99 is never
    used. *)
Theorem pay_dist_bands (parse_number : string → option pyfloat)
    (df : list Row) :
  key1 <$> Dashboard.pay_dist parse_number df
  = filter (λ b, b ∈ (λ r, pay_band (pay_numeric parse_number r)) <$> df)
      band_order.
Proof.
  set (R := λ a b : string,
         (rank_of band_order a <= rank_of band_order b)%nat).
  set (col := Dashboard.pay_band_col parse_number).
  assert (Hel : ∀ b, b ∈ key1 <$> Dashboard.pay_dist parse_number df ↔
                     b ∈ (λ r, pay_band (pay_numeric parse_number r)) <$> df).
  { intros b. unfold Dashboard.pay_dist.
    rewrite (fmap_Permutation key1 _ _ (sort_by_rank_perm _ _)).
    rewrite key1_groupby_single, list_elem_of_fmap. split.
    - intros (r & Hr & [= <-]). eauto.
    - intros (r & -> & Hr). exists r. done. }
  apply (StronglySorted_unique_strong R).
  - intros x1 x2 Hx1 [_ Hx2]%list_elem_of_filter H12 H21.
    apply (rank_of_inj band_order); [|done|unfold R in *; lia].
    apply Hel, list_elem_of_fmap in Hx1 as (r & -> & _).
    apply pay_band_listed.
  - unfold Dashboard.pay_dist.
    eapply StronglySorted_fmap; [|apply sort_by_rank_sorted].
    intros g1 g2 Hg. exact Hg.
  - apply StronglySorted_filter, band_order_sorted.
  - apply NoDup_Permutation.
    + unfold Dashboard.pay_dist.
      apply (NoDup_key1 col df).
      * intros g Hg. rewrite sort_by_rank_perm in Hg.
        by apply elem_of_groupby_sum in Hg as [? _].
      * eapply NoDup_keys_perm; [apply sort_by_rank_perm|].
        apply NoDup_keys_groupby.
    + apply NoDup_filter, band_order_NoDup.
    + intros b. rewrite Hel, list_elem_of_filter. split; [|tauto].
      intros Hb. split; [done|].
      apply list_elem_of_fmap in Hb as (r & -> & _). apply pay_band_listed.
Qed.

(** ** The six tables of the full export *)

Ltac lookup_written :=
  cbn [apply_writes foldl fst snd app ProcessData.csv_exports];
  repeat (rewrite lookup_insert_ne
            by (let H := fresh in intros H; vm_compute in H; discriminate H));
  apply lookup_insert_eq.

(** X7: a run of the full export on a loaded frame leaves each of its six
    CSV files holding the table computed from that frame, whatever the
    file system held before (the output directory need not exist) and
    also when the statistics step then fails. *)
Theorem full_export_writes_tables (parse_number : string → option pyfloat)
    (observed_default : bool) (df : list Row) (fs : FS) :
  files (fs_after (ProcessData.main parse_number observed_default (Some df) fs))
    !! path_join PROCESSED_DATA_PATH "agency_summary.csv"
  = Some (Csv (ProcessData.agency_export observed_default df))
  ∧ files (fs_after (ProcessData.main parse_number observed_default
                       (Some df) fs))
      !! path_join PROCESSED_DATA_PATH "state_summary.csv"
    = Some (Csv (ProcessData.state_export observed_default df))
  ∧ files (fs_after (ProcessData.main parse_number observed_default
                       (Some df) fs))
      !! path_join PROCESSED_DATA_PATH "occupation_summary.csv"
    = Some (Csv (ProcessData.occupation_export observed_default df))
  ∧ files (fs_after (ProcessData.main parse_number observed_default
                       (Some df) fs))
      !! path_join PROCESSED_DATA_PATH "demographics_summary.csv"
    = Some (Csv (ProcessData.demographics_export observed_default df))
  ∧ files (fs_after (ProcessData.main parse_number observed_default
                       (Some df) fs))
      !! path_join PROCESSED_DATA_PATH "pay_distribution.csv"
    = Some (Csv (ProcessData.pay_distribution parse_number observed_default df))
  ∧ files (fs_after (ProcessData.main parse_number observed_default
                       (Some df) fs))
      !! path_join PROCESSED_DATA_PATH "appointment_summary.csv"
    = Some (Csv (ProcessData.appointment_export observed_default df))
  ∧ PROCESSED_DATA_PATH
    ∈ dirs (fs_after (ProcessData.main parse_number observed_default
                        (Some df) fs)).
Proof.
  rewrite main_loaded.
  destruct (ProcessData.overall_stats df) as [s|e]; cbn [fs_after files dirs];
    split_and!; try lookup_written; set_solver.
Qed.

(** ** Which rows land in the redacted bucket *)

Lemma pay_band_redacted_iff (pay : pyfloat) :
  pay_band pay = "Redacted" ↔ pay = FNaN.
Proof.
  destruct pay as [| | |q]; try (split; [done|]; done).
  unfold pay_band. cbn [isna].
  flt_split q 50000; [done|].
  flt_split q 75000; [done|].
  flt_split q 100000; [done|].
  flt_split q 125000; [done|].
  flt_split q 150000; [done|].
  flt_split q 200000; done.
Qed.

Lemma categorize_pay_unknown_iff (pay : pyfloat) :
  categorize_pay pay = "Unknown/Redacted" ↔ pay = FNaN.
Proof.
  destruct pay as [| | |q]; try (split; [done|]; done).
  unfold categorize_pay. cbn [isna].
  flt_split q 40000; [done|].
  flt_split q 60000; [done|].
  flt_split q 80000; [done|].
  flt_split q 100000; [done|].
  flt_split q 150000; [done|].
  flt_split q 200000; done.
Qed.

Lemma pay_numeric_nan_iff (parse_number : string → option pyfloat) (r : Row) :
  pay_numeric parse_number r = FNaN ↔
  annualized_adjusted_basic_pay r = None
  ∨ ∃ s, annualized_adjusted_basic_pay r = Some s
         ∧ (parse_number s = None ∨ parse_number s = Some FNaN).
Proof.
  unfold pay_numeric, to_numeric.
  destruct (annualized_adjusted_basic_pay r) as [s|]; [|by split; [left|]].
  destruct (parse_number s) as [v|] eqn:Hs.
  - split.
    + intros ->. right. exists s. split; [done|]. by right.
    + intros [?|(s' & [= <-] & [?|?])]; congruence.
  - split; [|done]. intros _. right. exists s. split; [done|]. by left.
Qed.

(** X8: a row falls in the bucket 'Redacted' of the dashboard, and in
    'Unknown/Redacted' of the full export, exactly when its pay cell is
    missing, is not a numeric string, or reads as NaN.  So every row
    flagged [is_redacted] is in the bucket (the sentinel not being
    numeric), but the bucket also takes rows that are not flagged. *)
Theorem redacted_bucket (parse_number : string → option pyfloat) (r : Row) :
  (Dashboard.pay_band_col parse_number r = Some "Redacted" ↔
     annualized_adjusted_basic_pay r = None
     ∨ ∃ s, annualized_adjusted_basic_pay r = Some s
            ∧ (parse_number s = None ∨ parse_number s = Some FNaN))
  ∧ (ProcessData.pay_band_col parse_number r = Some "Unknown/Redacted" ↔
       annualized_adjusted_basic_pay r = None
       ∨ ∃ s, annualized_adjusted_basic_pay r = Some s
              ∧ (parse_number s = None ∨ parse_number s = Some FNaN))
  ∧ (parse_number "REDACTED" = None → is_redacted r = true →
     Dashboard.pay_band_col parse_number r = Some "Redacted"
     ∧ ProcessData.pay_band_col parse_number r = Some "Unknown/Redacted")
  ∧ (annualized_adjusted_basic_pay r = None →
     is_redacted r = false
     ∧ ProcessData.pay_band_col parse_number r = Some "Unknown/Redacted").
Proof.
  assert (Hd : Dashboard.pay_band_col parse_number r = Some "Redacted" ↔
               pay_numeric parse_number r = FNaN).
  { unfold Dashboard.pay_band_col. rewrite <- pay_band_redacted_iff.
    split; [by intros [= ->]|by intros ->]. }
  assert (Hp : ProcessData.pay_band_col parse_number r
               = Some "Unknown/Redacted" ↔
               pay_numeric parse_number r = FNaN).
  { unfold ProcessData.pay_band_col. rewrite <- categorize_pay_unknown_iff.
    split; [by intros [= ->]|by intros ->]. }
  split_and!.
  - by rewrite Hd, pay_numeric_nan_iff.
  - by rewrite Hp, pay_numeric_nan_iff.
  - intros Hs Hr. rewrite Hd, Hp, pay_numeric_nan_iff.
    unfold is_redacted in Hr.
    destruct (annualized_adjusted_basic_pay r) as [s|]; [|done].
    apply bool_decide_eq_true in Hr as ->.
    split; right; exists "REDACTED"; auto.
  - intros Hnone. split; [unfold is_redacted; by rewrite Hnone|].
    rewrite Hp, pay_numeric_nan_iff. by left.
Qed.

(** ** What [observed=False] adds *)

Lemma group_rows_unobserved (cols : list column) (df : list Row)
    (k : list string) :
  k ∉ group_keys true cols df → group_rows cols df k = [].
Proof.
  intros Hk. unfold group_rows.
  induction df as [|r df IH]; [done|].
  rewrite filter_cons. destruct (decide (key_of cols r = Some k)) as [Hr|Hr].
  - exfalso. apply Hk, elem_of_observed_keys. exists r.
    split; [apply list_elem_of_here|done].
  - apply IH. intros Hin. apply Hk.
    apply elem_of_observed_keys in Hin as (r' & Hr' & Hk').
    apply elem_of_observed_keys. exists r'.
    split; [by apply list_elem_of_further|done].
Qed.

Lemma length_product (ls : list (list string)) :
  length (product ls) = foldr (λ l n, (length l * n)%nat) 1%nat ls.
Proof.
  induction ls as [|l ls IH]; [done|].
  cbn [product foldr]. rewrite <- IH. clear IH.
  induction l as [|x l IHl]; [done|].
  rewrite bind_cons, length_app, length_fmap, IHl. simpl. lia.
Qed.

Lemma length_omap_le {A B} (f : A → option B) (l : list A) :
  (length (omap f l) <= length l)%nat.
Proof.
  induction l as [|x l IH]; [done|].
  cbn [omap list_omap]. destruct (f x); cbn [length]; lia.
Qed.

Lemma length_categories (c : column) (df : list Row) :
  length (categories c df) = ProcessData.nunique c df.
Proof. unfold categories, ProcessData.nunique. by rewrite merge_sort_Permutation. Qed.

(** X9: grouping with [observed=False] only adds rows: every group that
    [observed=True] yields is there with the same sum, and every row
    besides has a sum of 0 and the key of no source row.  A table then has
    as many rows as the product of the numbers of distinct values of its
    key columns, where [observed=True] gives at most one row per source
    row. *)
Theorem unobserved_groups_are_empty (cols : list column) (df : list Row) :
  (∀ g, g ∈ groupby_sum true cols df → g ∈ groupby_sum false cols df)
  ∧ (∀ g, g ∈ groupby_sum false cols df →
       g ∈ groupby_sum true cols df
       ∨ (employees g = 0 ∧ ∀ r, r ∈ df → key_of cols r ≠ Some (keys g)))
  ∧ length (groupby_sum false cols df)
    = foldr (λ c n, (ProcessData.nunique c df * n)%nat) 1%nat cols
  ∧ (length (groupby_sum true cols df) <= length df)%nat
  ∧ (length (groupby_sum true cols df)
     <= length (groupby_sum false cols df))%nat.
Proof.
  assert (Hsub : ∀ g, g ∈ groupby_sum true cols df →
                      g ∈ groupby_sum false cols df).
  { intros g [Hk He]%elem_of_groupby_sum.
    apply elem_of_groupby_sum. split; [|done].
    apply elem_of_observed_keys in Hk as (r & Hr & Hk).
    by eapply group_keys_complete. }
  split_and!.
  - exact Hsub.
  - intros g [Hk He]%elem_of_groupby_sum.
    destruct (decide (keys g ∈ group_keys true cols df)) as [Hin|Hout].
    + left. by apply elem_of_groupby_sum.
    + right. split.
      * rewrite He. unfold count_sum.
        by rewrite group_rows_unobserved.
      * intros r Hr Hkey. apply Hout, elem_of_observed_keys. eauto.
  - unfold groupby_sum, group_keys.
    rewrite length_fmap, length_product. clear Hsub.
    induction cols as [|c cols IH]; [done|].
    rewrite fmap_cons. cbn [foldr]. by rewrite IH, length_categories.
  - unfold groupby_sum, group_keys.
    rewrite length_fmap, merge_sort_Permutation.
    apply (Nat.le_trans _ (length (omap (key_of cols) df)));
      [|apply length_omap_le].
    apply submseteq_length, NoDup_submseteq; [apply NoDup_remove_dups|].
    intros k Hk. by rewrite elem_of_remove_dups in Hk.
  - rewrite <- (length_fmap keys (groupby_sum true cols df)).
    rewrite <- (length_fmap keys (groupby_sum false cols df)).
    apply submseteq_length, NoDup_submseteq; [apply NoDup_keys_groupby|].
    intros k (g & -> & Hg)%list_elem_of_fmap.
    apply list_elem_of_fmap. exists g. split; [done|]. by apply Hsub.
Qed.

(** ** The positive groups do not depend on [observed] *)

Lemma NoDup_table (t : list AggRow) : NoDup (keys <$> t) → NoDup t.
Proof. apply NoDup_fmap_1. Qed.

(** X10: filtering a grouped table to [employees > 0], as the dashboard does,
    gives the same rows whether the grouping was done with
    [observed=True] or with [observed=False]. *)
Theorem positive_groups_any_observed (cols : list column) (df : list Row) :
  filter_positive (groupby_sum false cols df) ≡ₚ Dashboard.summary cols df.
Proof.
  unfold Dashboard.summary, filter_positive.
  apply NoDup_Permutation.
  - apply NoDup_filter, NoDup_table, NoDup_keys_groupby.
  - apply NoDup_filter, NoDup_table, NoDup_keys_groupby.
  - intros g. rewrite !list_elem_of_filter. split.
    + intros [Hpos Hg]. split; [done|].
      apply elem_of_groupby_sum in Hg as [Hk He].
      apply elem_of_groupby_sum. split; [|done].
      destruct (decide (keys g ∈ group_keys true cols df)) as [|Hout]; [done|].
      exfalso. rewrite He in Hpos. unfold count_sum in Hpos.
      rewrite group_rows_unobserved in Hpos by done.
      vm_compute in Hpos. done.
    + intros [Hpos Hg]. split; [done|].
      apply elem_of_groupby_sum in Hg as [Hk He].
      apply elem_of_groupby_sum. split; [|done].
      apply elem_of_observed_keys in Hk as (r & Hr & Hk).
      by eapply group_keys_complete.
Qed.

Lemma tables_against_total_witness :
  let df := [mk_state "REDACTED" "REDACTED" 5; mk_state "TEXAS" "TX" 3;
             mk_agency "AGENCY A" "AA" 10; mk_agency "AGENCY A" "AA" 20] in
  well_typed df
  ∧ sum_employees (Dashboard.pay_dist Decimal.parse df) = 38
  ∧ o_total_employees (Dashboard.overall df) = 38
  ∧ sum_employees (Dashboard.agency_data df) = 30
  ∧ sum_employees (Dashboard.state_data df) = 3.
Proof.
  intros df.
  assert (Hty : well_typed df).
  { split; [|by vm_compute]. repeat constructor; by vm_compute. }
  pose proof (tables_against_total Decimal.parse df Hty) as [Hpay _].
  split_and!; [done| |by vm_compute..].
  rewrite Hpay. by vm_compute.
Defined.
